(** * Team dashboard list fetcher and repository link form

    A shallow embedding of the two view components of the hackathon admin
    front end whose behaviour goes beyond markup:

    - the admin live page ([Index]): the filtered, paginated teams list
      driven by [fetchTeams], the filter [useEffect] and the
      [InfiniteScroll] component;
    - [RepositoriesComponent]: the list of URL inputs, its [isValid] memo,
      the submit button and [handleRepoDelete].

    React state cells are record fields, a render closes over a snapshot of
    them, and an [await] splits a handler into the part that runs before
    the request and the part that runs when the response arrives. *)

From Stdlib Require Import ZArith Ascii String List DecimalString Lia.
From Stdlib Require DecimalZ.
From stdpp Require Import base option list strings gmap.

Local Open Scope string_scope.
Local Open Scope Z_scope.
Local Open Scope list_scope.

(** ** JavaScript value conventions used by both components *)

Module Js.


(** [`${n}`] for a safe integer. *)
Definition show (n : Z) : string := NilZero.string_of_int (Z.to_int n).

(** Truthiness of an optional number: [undefined] and [0] are falsy. *)
Definition truthy_num (n : option Z) : bool :=
  match n with
  | Some k => negb (Z.eqb k 0)
  | None => false
  end.

(** Truthiness of an optional string: [undefined] and [''] are falsy. *)
Definition truthy_str (s : option string) : bool :=
  match s with
  | Some t => negb (String.eqb t "")
  | None => false
  end.

(** ['text' + v] where [v] may be [undefined]. *)
Definition plus_str (pre : string) (v : option string) : string :=
  pre +:+ default "undefined" v.

(** [n == 1] for a number that may be [undefined]. *)
Definition eq_one (n : option Z) : bool :=
  match n with
  | Some k => Z.eqb k 1
  | None => false
  end.

End Js.

(** ** What the request handlers hand back

    [res.statusCode], and inside [res.data] the payload field the caller
    reads ([teams], or nothing for a deletion) and the optional [message]. *)

Record Response (A : Type) : Type := mkResponse {
  statusCode : Z;
  body : option A;
  message : option string
}.
Arguments mkResponse {A} _ _ _.
Arguments statusCode {A} _.
Arguments body {A} _.
Arguments message {A} _.

(** The two entry points of the [Toaster] utility that the components use. *)
Inductive Toast : Type :=
  | ToastError (text : string)
  | ToastSuccess (text : string).

(** ** The admin live page *)

Module Dashboard.

Record HackathonTeam : Type := mkTeam {
  team_id : string;
  team_title : string;
  isEliminated : bool;
  roundScore : Z
}.

(** The five filter cells, the dependency list of the fetching effect. The
    score floor is taken over the integers. *)
Record Filters : Type := mkFilters {
  search : string;
  track : string;
  eliminated : string;
  overallScore : Z;
  order : string
}.

#[export] Instance Filters_eq_dec : EqDecision Filters.
Proof. solve_decision. Defined.

(** The state cells the list fetcher reads and writes. *)
Record View : Type := mkView {
  teams : list HackathonTeam;
  page : Z;
  loading : bool;
  hasMore : bool;
  filters : Filters
}.

Definition initialFilters : Filters :=
  {| search := ""; track := ""; eliminated := ""; overallScore := 0;
     order := "latest" |}.

(** The [useState] initial values. *)
Definition initialView : View :=
  {| teams := []; page := 0; loading := true; hasMore := true;
     filters := initialFilters |}.

Definition setTeams (l : list HackathonTeam) (v : View) : View :=
  {| teams := l; page := page v; loading := loading v;
     hasMore := hasMore v; filters := filters v |}.
Definition setPage (p : Z) (v : View) : View :=
  {| teams := teams v; page := p; loading := loading v;
     hasMore := hasMore v; filters := filters v |}.
Definition setLoading (b : bool) (v : View) : View :=
  {| teams := teams v; page := page v; loading := b;
     hasMore := hasMore v; filters := filters v |}.
Definition setHasMore (b : bool) (v : View) : View :=
  {| teams := teams v; page := page v; loading := loading v;
     hasMore := b; filters := filters v |}.
Definition setFilters (f : Filters) (v : View) : View :=
  {| teams := teams v; page := page v; loading := loading v;
     hasMore := hasMore v; filters := f |}.

(** Values imported from modules that are not part of the page:
    [ORG_URL] of [config/routes], [SERVER_ERROR] of [config/errors],
    the current hackathon of the store and [window.location.pathname]. *)
Record Config : Type := mkConfig {
  ORG_URL : string;
  SERVER_ERROR : string;
  hackathon_organizationID : string;
  hackathon_id : string;
  pathname : string
}.

(** One call of [getHandler]: the URL, the abort signal handed over (the
    identity of its controller) and, for the part of [fetchTeams] that
    runs after the [await], the argument [initialPage] and the render
    snapshot the call closed over. *)
Record Request : Type := mkRequest {
  req_url : string;
  req_signal : option nat;
  req_initialPage : option Z;
  req_snap : View
}.

Section Page.

Variable cfg : Config.

(** [initialPage ? initialPage : page] *)
Definition requestedPage (snap : View) (initialPage : option Z) : Z :=
  if Js.truthy_num initialPage then default 0 initialPage else page snap.

(** The template literal of [fetchTeams]. *)
Definition fetchTeams_url (snap : View) (initialPage : option Z) : string :=
  let f := filters snap in
  ORG_URL cfg +:+ "/" +:+ hackathon_organizationID cfg +:+ "/hackathons/"
    +:+ hackathon_id cfg +:+ "/teams?page="
    +:+ Js.show (requestedPage snap initialPage)
    +:+ "&limit=" +:+ Js.show 20
    +:+ "&search=" +:+ search f
    +:+ (if bool_decide (track f ≠ "") && bool_decide (track f ≠ "none")
         then "&track_id=" +:+ track f else "")
    +:+ (if bool_decide (overallScore f ≠ 0)
         then "&overall_score=" +:+ Js.show (overallScore f) else "")
    +:+ (if bool_decide (eliminated f ≠ "")
            && bool_decide (eliminated f ≠ "none")
         then "&is_eliminated="
                +:+ (if bool_decide (eliminated f = "eliminated")
                     then "true" else "false")
         else "")
    +:+ "&order=" +:+ order f.

(** [fetchTeams] up to its [await]: the one [getHandler] call. *)
Definition fetchTeams_call (snap : View) (abortController : option nat)
    (initialPage : option Z) : Request :=
  {| req_url := fetchTeams_url snap initialPage;
     req_signal := abortController;
     req_initialPage := initialPage;
     req_snap := snap |}.

(** [fetchTeams] after its [await]. [teams] is the snapshot's list;
    [setTeams] and [setHasMore] overwrite the current cell and
    [setPage(prev => prev + 1)] reads it. *)
Definition fetchTeams_resume (snap : View) (initialPage : option Z)
    (res : Response (list HackathonTeam)) (cur : View)
    : View * list Toast :=
  if Z.eqb (statusCode res) 200 then
    let got := default [] (body res) in
    let cur1 :=
      if Js.eq_one initialPage then setTeams got cur
      else
        let addedTeams := teams snap ++ got in
        let cur0 :=
          if Nat.eqb (length addedTeams) (length (teams snap))
          then setHasMore false cur else cur in
        setTeams addedTeams cur0 in
    (setLoading false (setPage (page cur1 + 1) cur1), [])
  else
    (cur, [ToastError (if Js.truthy_str (message res)
                       then default "" (message res)
                       else SERVER_ERROR cfg)]).

(** The page between two events: the state cells, every [getHandler]
    call made so far (a request is named by its position), the calls
    whose promise has settled, the controllers aborted so far, the
    controller the pending effect clean-up will abort, the number of
    controllers created, the toasts shown and the navigation target
    once the page has been left. *)
Record World : Type := mkWorld {
  view : View;
  issued : list Request;
  settled : gset nat;
  aborted : gset nat;
  cleanup : option nat;
  controllers : nat;
  toasts : list Toast;
  redirect : option string
}.

Definition with_view (v : View) (w : World) : World :=
  {| view := v; issued := issued w; settled := settled w;
     aborted := aborted w; cleanup := cleanup w;
     controllers := controllers w; toasts := toasts w;
     redirect := redirect w |}.
Definition with_issued (l : list Request) (w : World) : World :=
  {| view := view w; issued := l; settled := settled w;
     aborted := aborted w; cleanup := cleanup w;
     controllers := controllers w; toasts := toasts w;
     redirect := redirect w |}.
Definition with_settled (s : gset nat) (w : World) : World :=
  {| view := view w; issued := issued w; settled := s;
     aborted := aborted w; cleanup := cleanup w;
     controllers := controllers w; toasts := toasts w;
     redirect := redirect w |}.
Definition with_aborted (s : gset nat) (w : World) : World :=
  {| view := view w; issued := issued w; settled := settled w;
     aborted := s; cleanup := cleanup w;
     controllers := controllers w; toasts := toasts w;
     redirect := redirect w |}.
Definition with_cleanup (c : option nat) (w : World) : World :=
  {| view := view w; issued := issued w; settled := settled w;
     aborted := aborted w; cleanup := c;
     controllers := controllers w; toasts := toasts w;
     redirect := redirect w |}.
Definition with_controllers (n : nat) (w : World) : World :=
  {| view := view w; issued := issued w; settled := settled w;
     aborted := aborted w; cleanup := cleanup w;
     controllers := n; toasts := toasts w;
     redirect := redirect w |}.
Definition with_toasts (t : list Toast) (w : World) : World :=
  {| view := view w; issued := issued w; settled := settled w;
     aborted := aborted w; cleanup := cleanup w;
     controllers := controllers w; toasts := t;
     redirect := redirect w |}.
Definition with_redirect (r : option string) (w : World) : World :=
  {| view := view w; issued := issued w; settled := settled w;
     aborted := aborted w; cleanup := cleanup w;
     controllers := controllers w; toasts := toasts w;
     redirect := r |}.

(** [controller.abort()] *)
Definition abort (c : nat) (w : World) : World :=
  with_aborted ({[c]} ∪ aborted w) w.

(** The body of the filter effect, run after a render whose cells are
    [view w]. [oldAbortController] is a [let] of the component body, so
    each render starts it at [null] and the guarded abort is skipped;
    the assignment that follows is lost with the render. The calls of
    [setPage], [setTeams], [setHasMore] and [setLoading] are queued and
    [fetchTeams] still sees the cells of this render. *)
Definition effect (w : World) : World :=
  let abortController := controllers w in
  let w0 := with_controllers (S abortController) w in
  let oldAbortController : option nat := None in
  let w1 := match oldAbortController with
            | Some c => abort c w0
            | None => w0
            end in
  let w2 :=
    if bool_decide (hackathon_id cfg = "") then
      with_redirect (Some ("/?redirect_url=" +:+ pathname cfg)) w1
    else
      let reset :=
        setLoading true (setHasMore true (setTeams [] (setPage 1 (view w1)))) in
      with_view reset
        (with_issued
           (issued w1 ++ [fetchTeams_call (view w1) (Some abortController) (Some 1)])
           w1) in
  with_cleanup (Some abortController) w2.

(** The clean-up the previous run of the effect returned. *)
Definition run_cleanup (w : World) : World :=
  match cleanup w with
  | Some c => with_cleanup None (abort c w)
  | None => w
  end.

(** Modelled from the spec: [getHandler] of [handlers/get_handler] is not
    among the sources. A request whose abort signal has fired is cancelled:
    it hands no response over to [fetchTeams], so nothing of it reaches the
    list. A request made without a signal cannot be cancelled. *)
Definition cancelled (w : World) (r : Request) : bool :=
  match req_signal r with
  | Some c => bool_decide (c ∈ aborted w)
  | None => false
  end.

(** The request at position [i] when its response is still awaited and
    can be delivered. *)
Definition awaiting (w : World) (i : nat) : option Request :=
  match redirect w, issued w !! i with
  | None, Some r =>
      if bool_decide (i ∈ settled w) || cancelled w r then None else Some r
  | _, _ => None
  end.

(** What can happen to the page. *)
Inductive Event : Type :=
  | FilterChange (f : Filters)
  | Scroll
  | Resolve (i : nat) (res : Response (list HackathonTeam)).

(** One event. A filter setter that stores an equal value leaves the
    dependency list of the effect unchanged, so the effect does not run;
    otherwise the clean-up of the previous run comes first. The
    [InfiniteScroll] component calls its [next] prop, the [fetchTeams] of
    the latest render, without arguments and only while its [hasMore] prop
    is true. A response resumes the [fetchTeams] call that awaits it, once,
    unless the request was cancelled. Once the page has navigated away
    nothing more happens to it. *)
Definition step (w : World) (e : Event) : World :=
  match redirect w with
  | Some _ => w
  | None =>
      match e with
      | FilterChange f =>
          if bool_decide (f = filters (view w)) then w
          else effect (run_cleanup (with_view (setFilters f (view w)) w))
      | Scroll =>
          if hasMore (view w)
          then with_issued (issued w ++ [fetchTeams_call (view w) None None]) w
          else w
      | Resolve i res =>
          match issued w !! i with
          | Some r =>
              if bool_decide (i ∈ settled w) then w
              else
                let w1 := with_settled ({[i]} ∪ settled w) w in
                if cancelled w r then w1
                else
                  let '(v, ts) :=
                    fetchTeams_resume (req_snap r) (req_initialPage r) res (view w) in
                  with_toasts (toasts w ++ ts) (with_view v w1)
          | None => w
          end
      end
  end.

(** The page before its first render has been committed. *)
Definition blank : World :=
  {| view := initialView; issued := []; settled := ∅; aborted := ∅;
     cleanup := None; controllers := 0; toasts := []; redirect := None |}.

(** The page once mounted: the filter effect has run for the first time. *)
Definition mount : World := effect blank.

(** The page after a sequence of events. *)
Definition run (evs : list Event) : World := fold_left step evs mount.

(** A scroll fetch whose response arrives before anything else happens. *)
Definition scroll_then_resolve (w : World)
    (res : Response (list HackathonTeam)) : World :=
  step (step w Scroll) (Resolve (length (issued w)) res).

End Page.

End Dashboard.

(** ** The repository link form *)

Module Repositories.

Record GithubRepo : Type := mkRepo {
  id : string;
  repoName : string;
  repoLink : string
}.

(** The fields of the [team] prop that the component reads. *)
Record TeamProp : Type := mkTeamProp {
  team_hackathonID : string;
  team_id : string;
  team_projectID : string
}.

(** The four state cells of the component. *)
Record Form : Type := mkForm {
  githubRepos : list GithubRepo;
  newRepos : list string;
  loading : bool;
  error : option string
}.

(** The [useState] initial values: one empty entry. *)
Definition initialForm : Form :=
  {| githubRepos := []; newRepos := [""]; loading := true; error := None |}.

Definition setGithubRepos (l : list GithubRepo) (s : Form) : Form :=
  {| githubRepos := l; newRepos := newRepos s; loading := loading s;
     error := error s |}.
Definition setNewRepos (l : list string) (s : Form) : Form :=
  {| githubRepos := githubRepos s; newRepos := l; loading := loading s;
     error := error s |}.
Definition setError (e : string) (s : Form) : Form :=
  {| githubRepos := githubRepos s; newRepos := newRepos s;
     loading := loading s; error := Some e |}.

(** [l.filter((x, i) => keep(x, i))], counting positions from [i]. *)
Fixpoint filter_from {A : Type} (keep : A -> nat -> bool) (i : nat)
    (l : list A) : list A :=
  match l with
  | [] => []
  | x :: rest =>
      if keep x i then x :: filter_from keep (S i) rest
      else filter_from keep (S i) rest
  end.

(** [l.map((x, i) => f(x, i))], counting positions from [i]. *)
Fixpoint map_from {A B : Type} (f : A -> nat -> B) (i : nat)
    (l : list A) : list B :=
  match l with
  | [] => []
  | x :: rest => f x i :: map_from f (S i) rest
  end.

Definition handleAddInput (s : Form) : Form :=
  setNewRepos (newRepos s ++ [""]) s.

Definition handleRemoveInput (index : nat) (s : Form) : Form :=
  setNewRepos (filter_from (fun _ i => negb (Nat.eqb i index)) 0%nat (newRepos s)) s.

Definition handleInputChange (index : nat) (value : string) (s : Form) : Form :=
  setNewRepos
    (map_from (fun repo i => if Nat.eqb i index then value else repo) 0%nat
       (newRepos s))
    s.

(** How a call of [deleteHandler] ends for the [try] block around it. *)
Inductive Outcome : Type :=
  | Returned (res : Response unit)
  | Threw.

Section Component.

(** [isURL] of the [validator] package, called with its default
    options; the form depends on its verdicts only. *)
Variable isURL : string -> bool.

(** [newRepos.every(repo => isURL(repo))] *)
Definition isValid (s : Form) : bool := forallb isURL (newRepos s).

(** The submit button is rendered: [newRepos && newRepos.length > 0]. *)
Definition submitShown (s : Form) : bool :=
  Nat.ltb 0 (length (newRepos s)).

(** The submit button is rendered and not [disabled]. *)
Definition submitEnabled (s : Form) : bool :=
  submitShown s && negb (negb (isValid s)).

Variable team : TeamProp.

(** The URL handed to [deleteHandler]. *)
Definition handleRepoDelete_url (repo : string) : string :=
  "/hackathons/" +:+ team_hackathonID team +:+ "/participants/teams/"
    +:+ team_id team +:+ "/project/github/" +:+ repo
    +:+ "?repoID=" +:+ repo.

(** [handleRepoDelete] after its [await]: [snap] holds the cells of the
    render whose bin icon was clicked, [cur] the cells when the request
    ends. *)
Definition handleRepoDelete_resume (snap : Form) (repo : string)
    (o : Outcome) (cur : Form) : Form * list Toast :=
  match o with
  | Returned res =>
      if Z.eqb (statusCode res) 200 then
        (setGithubRepos
           (List.filter (fun r => negb (String.eqb (id r) repo))
              (githubRepos snap))
           cur,
         [ToastSuccess "Repository deleted successfully"])
      else
        (cur,
         [ToastError (Js.plus_str "Failed to delete repository  " (message res))])
  | Threw => (setError "Failed to delete repository" cur, [])
  end.

(** A deletion that ends before anything else touches the component. *)
Definition handleRepoDelete (s : Form) (repo : string) (o : Outcome)
    : Form * list Toast :=
  handleRepoDelete_resume s repo o s.

End Component.

End Repositories.

(** ** The query as the specification words it *)

Module Spec.

Import Dashboard.





(** "Exactly the entries whose identifier equals the given one are removed,
    every other entry stays, in its original order." *)
Inductive removes_exactly {A : Type} (matches : A -> Prop)
    : list A -> list A -> Prop :=
  | removes_nil : removes_exactly matches [] []
  | removes_drop x l l' :
      matches x -> removes_exactly matches l l' ->
      removes_exactly matches (x :: l) l'
  | removes_keep x l l' :
      ~ matches x -> removes_exactly matches l l' ->
      removes_exactly matches (x :: l) (x :: l').

End Spec.

(** ** Invariants of the admin live page *)

Module Invariants.

Import Dashboard.

(** A render that shows page counter 1 holds no teams. *)
Definition page_one_empty (v : View) : Prop := page v = 1 -> teams v = [].

(** A request is either the effect's first-page fetch or a scroll fetch
    issued from a render satisfying [page_one_empty]. *)
Definition request_ok (r : Request) : Prop :=
  req_initialPage r = Some 1
  ∨ (req_initialPage r = None ∧ req_signal r = None ∧ page_one_empty (req_snap r)).

(** Settled positions name issued requests; aborted and pending
    controllers have been created. *)
Definition well_formed (w : World) : Prop :=
  (∀ i, i ∈ settled w -> (i < length (issued w))%nat)
  ∧ (∀ c, c ∈ aborted w -> (c < controllers w)%nat)
  ∧ (∀ c, cleanup w = Some c -> (c < controllers w)%nat)
  ∧ (∀ r c, r ∈ issued w -> req_signal r = Some c -> (c < controllers w)%nat).

(** What holds of the page for as long as it has not been left. *)
Definition inv (w : World) : Prop :=
  redirect w = None ->
  1 <= page (view w)
  ∧ page_one_empty (view w)
  ∧ Forall request_ok (issued w)
  ∧ well_formed w.

(** The request is what [fetchTeams] builds from its snapshot. *)
Definition built_by_fetchTeams (cfg : Config) (r : Request) : Prop :=
  r = fetchTeams_call cfg (req_snap r) (req_signal r) (req_initialPage r).

(** An event other than a change of the filters. *)
Definition quiet (e : Event) : bool :=
  match e with
  | FilterChange _ => false
  | _ => true
  end.

End Invariants.

(** ** Concrete data for evaluating the components *)

Module Samples.

Import Dashboard.

Definition cfg0 : Config :=
  {| ORG_URL := "https://api.example/org";
     SERVER_ERROR := "Internal Server Error";
     hackathon_organizationID := "org1";
     hackathon_id := "hack1";
     pathname := "/admin/live" |}.

Definition team (name : string) : HackathonTeam :=
  {| team_id := name; team_title := name; isEliminated := false;
     roundScore := 0 |}.

Definition ok (l : list HackathonTeam) : Response (list HackathonTeam) :=
  mkResponse 200 (Some l) None.

Definition failed (status : Z) (msg : option string)
    : Response (list HackathonTeam) :=
  mkResponse status None msg.

(** A second filter combination: track [t1], eliminated teams only. *)
Definition filtersB : Filters :=
  {| search := "rust"; track := "t1"; eliminated := "eliminated";
     overallScore := 5; order := "latest" |}.

(** The first page arrives, a scroll fetch for page 2 is issued, the filters
    change before it is answered, and the first page of the new filters
    arrives. Requests are numbered 0 (mount), 1 (scroll), 2 (change). *)
Definition superseding_trace : list Event :=
  [Resolve 0 (ok [team "a1"]); Scroll; FilterChange filtersB;
   Resolve 2 (ok [team "b1"])].

(** The first page has arrived and a scroll fetch (request 1) is out. *)
Definition first_page_loaded : list Event :=
  [Resolve 0 (ok [team "a1"]); Scroll].

(** The scroll fetch of [first_page_loaded]: page 2, no abort signal. *)
Definition second_page_request : Request :=
  fetchTeams_call cfg0
    {| teams := [team "a1"]; page := 2; loading := false; hasMore := true;
       filters := initialFilters |}
    None None.

(** The fetch the effect issues when the page mounts. *)
Definition mount_request : Request :=
  fetchTeams_call cfg0 initialView (Some 0%nat) (Some 1).

Definition repo (i name : string) : Repositories.GithubRepo :=
  {| Repositories.id := i; Repositories.repoName := name;
     Repositories.repoLink := "https://github.com/org/" +:+ name |}.

Definition linked : Repositories.Form :=
  {| Repositories.githubRepos := [repo "r1" "alpha"; repo "r2" "beta"; repo "r3" "gamma"];
     Repositories.newRepos := [""];
     Repositories.loading := false;
     Repositories.error := None |}.

End Samples.

(** ** The head of the admin live page: guard, banner and badges *)

Module LiveHead.

Import Dashboard.

(** The fields of a round that the page reads; times are instants. *)
Record HackathonRound : Type := mkRound {
  round_index : Z;
  endTime : Z;
  judgingStartTime : Z;
  judgingEndTime : Z
}.

(** What the mount effect does. *)
Inductive MountAction : Type :=
  | Replace (url : string)
  | LoadRounds.

(** The effect with the empty dependency list. [role] is what
    [getHackathonRole] returns, [now] the instant [moment()] reads;
    [isBefore] is strict. *)
Definition roleEffect (role : string) (isEnded : bool)
    (now teamFormationEndTime : Z) : MountAction :=
  if bool_decide (role ≠ "admin") && bool_decide (role ≠ "org")
  then Replace "/?action=sync"
  else if isEnded then Replace "/admin/ended"
  else if now <? teamFormationEndTime then Replace "/admin/teams"
  else LoadRounds.

(** The line under the round title. *)
Inductive JudgingNote : Type :=
  | JudgingLive (endsAt : Z)
  | NextJudging (startsAt : Z)
  | NoNote.

(** The heading section of the page. *)
Inductive Banner : Type :=
  | RoundLive (number : Z) (endsAt : Z) (note : JudgingNote)
  | AllRoundsEnded (endHackathonDialog : bool).

(** The ternary on [currentRound] in the markup. [isBetween] excludes both
    ends and [isAfter] is strict; a false [&&] renders nothing. *)
Definition banner (role : string) (currentRound : option HackathonRound)
    (now : Z) : Banner :=
  match currentRound with
  | Some round =>
      RoundLive (round_index round + 1) (endTime round)
        (if (judgingStartTime round <? now) && (now <? judgingEndTime round)
         then JudgingLive (judgingEndTime round)
         else if now <? judgingStartTime round
              then NextJudging (judgingStartTime round)
              else NoNote)
  | None => AllRoundsEnded (bool_decide (role = "admin"))
  end.

(** [getCurrentRound] after its [await]: the new [currentRound] cell and
    the toasts. A payload without a round stores a falsy value. *)
Definition getCurrentRound_resume (cfg : Config)
    (res : Response HackathonRound) (cur : option HackathonRound)
    : option HackathonRound * list Toast :=
  if Z.eqb (statusCode res) 200 then (body res, [])
  else (cur, [ToastError (if Js.truthy_str (message res)
                          then default "" (message res)
                          else SERVER_ERROR cfg)]).

(** The [status] prop a table row hands to its badge. *)
Definition rowStatus (team : HackathonTeam) : string :=
  if isEliminated team then "eliminated" else "not eliminated".

(** The [Status] component: class name and label of the button. *)
Definition Status (status : string) : string * string :=
  ((if bool_decide (status = "eliminated") then "bg-red-500" else "bg-green-500")
     +:+ " text-white text-xs font-medium px-3 py-1 rounded-full",
   if bool_decide (status = "eliminated") then "Eliminated" else "Not Eliminated").

End LiveHead.

(** ** More invariants of the teams list *)

Module Controllers.

Import Dashboard.

(** The abort controllers between two events: the latest one is pending in
    the clean-up, all earlier ones are aborted, and a request that carries
    a signal is a first-page fetch of the effect; the one that carries the
    latest signal was built under the filters now selected, and no two
    requests share a signal. A request without a signal is a scroll fetch. *)
Definition controllers_ok (w : World) : Prop :=
  cleanup w = Some (pred (controllers w))
  ∧ (0 < controllers w)%nat
  ∧ (∀ c, c ∈ aborted w ↔ (S c < controllers w)%nat)
  ∧ (∀ i r c, issued w !! i = Some r -> req_signal r = Some c ->
       (c < controllers w)%nat
       ∧ req_initialPage r = Some 1
       ∧ (S c = controllers w -> filters (req_snap r) = filters (view w))
       ∧ (∀ j r', issued w !! j = Some r' -> req_signal r' = Some c -> j = i))
  ∧ (∀ r, r ∈ issued w -> req_signal r = None -> req_initialPage r = None).

(** No request on record asks for a page below 1. *)
Definition pages_positive (w : World) : Prop :=
  Forall (fun r => 1 <= requestedPage (req_snap r) (req_initialPage r)) (issued w).

End Controllers.

(** ** The rest of the repository component *)

Module RepositoriesView.

Import Repositories.

Definition setLoading (b : bool) (s : Form) : Form :=
  {| githubRepos := githubRepos s; newRepos := newRepos s; loading := b;
     error := error s |}.

(** How the [getHandler] call of [fetchRepositories] ends. *)
Inductive FetchOutcome : Type :=
  | FetchReturned (res : Response (list GithubRepo))
  | FetchThrew.

(** The URL of [fetchRepositories]. *)
Definition fetchRepositories_url (team : TeamProp) : string :=
  "/hackathons/" +:+ team_hackathonID team +:+ "/participants/connections/"
    +:+ team_id team.

(** The state cells when the [githubRepos] cell may hold [undefined]:
    [reposMissing] says that it does, and then the list of [form] is not
    read. *)
Record Cells : Type := mkCells {
  form : Form;
  reposMissing : bool
}.

(** The cells on mount. *)
Definition initialCells : Cells :=
  {| form := initialForm; reposMissing := false |}.

(** [fetchRepositories] after its [await]. A 200 response is stored as it
    comes, also when it carries no [githubRepos]; in every case the loader
    is cleared. *)
Definition fetchRepositories_resume (SERVER_ERROR : string)
    (o : FetchOutcome) (cur : Cells) : Cells :=
  match o with
  | FetchReturned res =>
      if Z.eqb (statusCode res) 200 then
        match body res with
        | Some l =>
            {| form := setLoading false (setGithubRepos l (form cur));
               reposMissing := false |}
        | None =>
            {| form := setLoading false (form cur); reposMissing := true |}
        end
      else
        {| form := setLoading false
                     (setError (if Js.truthy_str (message res)
                                then default "" (message res)
                                else SERVER_ERROR) (form cur));
           reposMissing := reposMissing cur |}
  | FetchThrew =>
      {| form := setLoading false
                   (setError "Failed to fetch repositories" (form cur));
         reposMissing := reposMissing cur |}
  end.

(** What the component returns. [submit] is [None] when the button is not
    rendered and otherwise tells whether it is enabled. *)
Inductive Screen : Type :=
  | ShowLoader
  | ShowError (text : string)
  | ShowBody (repos : list GithubRepo) (entries : list string)
      (submit : option bool).

(** The two early returns and the body. *)
Definition render (isURL : string -> bool) (s : Form) : Screen :=
  if loading s then ShowLoader
  else if Js.truthy_str (error s) then ShowError (default "" (error s))
  else ShowBody (githubRepos s) (newRepos s)
         (if submitShown s then Some (negb (negb (isValid isURL s))) else None).

(** What the component returns for the cells: [None] when rendering
    throws, which [githubRepos.map] does on a missing list once neither
    early return is taken. *)
Definition renderCells (isURL : string -> bool) (c : Cells) : option Screen :=
  if loading (form c) then Some ShowLoader
  else if Js.truthy_str (error (form c))
       then Some (ShowError (default "" (error (form c))))
       else if reposMissing c then None
            else Some (render isURL (form c)).

(** What can happen to the mounted component. A deletion carries the cells
    of the render whose bin icon was clicked; that render showed a list. *)
Inductive Action : Type :=
  | AddInput
  | RemoveInput (index : nat)
  | InputChange (index : nat) (value : string)
  | FetchSettled (o : FetchOutcome)
  | DeleteSettled (snap : Form) (repo : string) (o : Outcome).

(** Whether a deletion stores a list. *)
Definition storesList (o : Outcome) : bool :=
  match o with
  | Returned res => Z.eqb (statusCode res) 200
  | Threw => false
  end.

Definition perform (SERVER_ERROR : string) (c : Cells) (a : Action) : Cells :=
  match a with
  | AddInput =>
      {| form := handleAddInput (form c); reposMissing := reposMissing c |}
  | RemoveInput i =>
      {| form := handleRemoveInput i (form c); reposMissing := reposMissing c |}
  | InputChange i v =>
      {| form := handleInputChange i v (form c); reposMissing := reposMissing c |}
  | FetchSettled o => fetchRepositories_resume SERVER_ERROR o c
  | DeleteSettled snap repo o =>
      {| form := (handleRepoDelete_resume snap repo o (form c)).1;
         reposMissing := if storesList o then false else reposMissing c |}
  end.

(** A sequence of actions. *)
Definition performAll (SERVER_ERROR : string) (c : Cells) (acts : list Action)
    : Cells :=
  fold_left (perform SERVER_ERROR) acts c.

(** [handleSaveRepositories]: the address the browser is sent to. [token]
    is what [Cookies.get('token')] returns. *)
Definition handleSaveRepositories_url (BACKEND_URL : string) (team : TeamProp)
    (token : option string) (s : Form) : string :=
  BACKEND_URL +:+ "/auth/github/" +:+ team_id team +:+ "?token="
    +:+ default "undefined" token +:+ "&repo_links="
    +:+ String.concat "," (newRepos s).

(** What the effect that reads the return query does. *)
Inductive ReturnAction : Type :=
  | DispatchGithubUsername (username : string)
  | ShowToast (t : Toast)
  | RouterReplace (path : string) (query : gmap string string).

(** The effect that reads [status], [username] and [message] from the
    address ([None] for [null]) and rewrites the router's query. *)
Definition returnEffect (status username message : option string)
    (path : string) (query : gmap string string) : list ReturnAction :=
  if Js.truthy_str status || Js.truthy_str message then
    let '(acts, q) :=
      if Js.truthy_str status then
        let '(acts1, q1) :=
          if bool_decide (status = Some "1") then
            (if Js.truthy_str username && bool_decide (username ≠ Some "")
             then [DispatchGithubUsername (default "" username)] else [],
             query)
          else if bool_decide (status = Some "0") then
            if Js.truthy_str message
            then ([ShowToast (ToastError (default "" message))], delete "message" query)
            else ([], query)
          else ([], query) in
        (acts1, delete "status" q1)
      else ([], query) in
    acts ++ [RouterReplace path q]
  else [].

End RepositoriesView.

(** ** Reading a query back from an address *)

Module UrlQuery.



(** [s] split at every [c]. *)
Fixpoint split (c : Ascii.ascii) (s : string) : list string :=
  match s with
  | EmptyString => [EmptyString]
  | String a rest =>
      if Ascii.eqb a c then EmptyString :: split c rest
      else match split c rest with
           | h :: t => String a h :: t
           | [] => [String a EmptyString]
           end
  end.








End UrlQuery.

(** ** More concrete data *)

Module MoreSamples.

Import Dashboard.

(** A page opened without a hackathon in the store. *)
Definition cfg_no_id : Config :=
  {| ORG_URL := "https://api.example/org";
     SERVER_ERROR := "Internal Server Error";
     hackathon_organizationID := "";
     hackathon_id := "";
     pathname := "/admin/live" |}.

(** A validator for evaluating the component: it accepts what starts with
    a web scheme and holds no blank. *)
Definition schemeValidator (s : string) : bool :=
  (String.prefix "https://" s || String.prefix "http://" s)
  && negb (existsb Ascii.is_space (list_ascii_of_string s)).

(** A round whose judging runs from instant 100 to instant 200. *)
Definition round1 : LiveHead.HackathonRound :=
  {| LiveHead.round_index := 0; LiveHead.endTime := 300;
     LiveHead.judgingStartTime := 100; LiveHead.judgingEndTime := 200 |}.

(** The query the linking flow comes back with after a failure. *)
Definition failureQuery : gmap string string :=
  {[ "status" := "0"; "message" := "denied"; "username" := "octo";
     "tab" := "repos" ]}.

(** The fetch of the effect after the filters changed to [filtersB] on a
    freshly mounted page that had been scrolled once. *)
Definition refiltered_request : Request :=
  fetchTeams_call Samples.cfg0
    {| teams := []; page := 1; loading := true; hasMore := true;
       filters := Samples.filtersB |}
    (Some 1%nat) (Some 1).

(** A loaded form that shows an error. *)
Definition broken : Repositories.Form :=
  {| Repositories.githubRepos := [Samples.repo "r1" "alpha"];
     Repositories.newRepos := [""];
     Repositories.loading := false;
     Repositories.error := Some "Failed to delete repository" |}.

End MoreSamples.

(** ** Facts about the admin live page *)

Section DashboardFacts.

Import Dashboard Invariants.

Variable cfg : Config.

Implicit Types (w : World) (v : View) (r : Request) (e : Event)
  (res : Response (list HackathonTeam)).

(** *** The part of [fetchTeams] after the [await] *)

Lemma resume_success snap ip res cur :
  statusCode res = 200 ->
  fetchTeams_resume cfg snap ip res cur =
    (let got := default [] (body res) in
     let added := teams snap ++ got in
     {| teams := if Js.eq_one ip then got else added;
        page := page cur + 1;
        loading := false;
        hasMore := if Js.eq_one ip then hasMore cur
                   else if Nat.eqb (length added) (length (teams snap))
                        then false else hasMore cur;
        filters := filters cur |}, []).
Proof.
  intros Hok. unfold fetchTeams_resume. rewrite Hok. simpl.
  destruct (Js.eq_one ip); [reflexivity|].
  destruct (Nat.eqb _ _); reflexivity.
Qed.

Lemma resume_failure snap ip res cur :
  statusCode res <> 200 ->
  fetchTeams_resume cfg snap ip res cur =
    (cur, [ToastError (if Js.truthy_str (message res)
                       then default "" (message res)
                       else SERVER_ERROR cfg)]).
Proof.
  intros Hne. unfold fetchTeams_resume.
  destruct (Z.eqb_spec (statusCode res) 200); [contradiction|reflexivity].
Qed.

Lemma resume_filters snap ip res cur :
  filters (fetchTeams_resume cfg snap ip res cur).1 = filters cur.
Proof.
  destruct (decide (statusCode res = 200)) as [Hok|Hne].
  - rewrite resume_success by assumption. reflexivity.
  - rewrite resume_failure by assumption. reflexivity.
Qed.

Lemma resume_hasMore_false snap ip res cur :
  hasMore cur = false ->
  hasMore (fetchTeams_resume cfg snap ip res cur).1 = false.
Proof.
  intros Hm. destruct (decide (statusCode res = 200)) as [Hok|Hne].
  - rewrite resume_success by assumption. simpl. rewrite Hm.
    destruct (Js.eq_one ip); [reflexivity|].
    destruct (Nat.eqb _ _); reflexivity.
  - rewrite resume_failure by assumption. exact Hm.
Qed.

(** *** Delivering a response *)

Lemma awaiting_inv w i r :
  awaiting w i = Some r ->
  redirect w = None ∧ issued w !! i = Some r ∧ (i ∉ settled w)
  ∧ cancelled w r = false.
Proof.
  unfold awaiting. destruct (redirect w); [discriminate|].
  destruct (issued w !! i) as [r'|]; [|discriminate].
  destruct (bool_decide (i ∈ settled w)) eqn:Hs; simpl; [discriminate|].
  destruct (cancelled w r') eqn:Hc; [discriminate|].
  intros [= <-]. apply bool_decide_eq_false in Hs. auto.
Qed.

Lemma step_resolve w i r res :
  awaiting w i = Some r ->
  step cfg w (Resolve i res) =
    with_toasts
      (toasts w ++ (fetchTeams_resume cfg (req_snap r) (req_initialPage r) res (view w)).2)
      (with_view
         (fetchTeams_resume cfg (req_snap r) (req_initialPage r) res (view w)).1
         (with_settled ({[i]} ∪ settled w) w)).
Proof.
  intros (Hr & Hi & Hs & Hc)%awaiting_inv. unfold step.
  rewrite Hr, Hi. rewrite bool_decide_eq_false_2 by assumption.
  rewrite Hc. destruct (fetchTeams_resume _ _ _ _ _). reflexivity.
Qed.

Lemma step_redirected w e : redirect w <> None -> step cfg w e = w.
Proof. unfold step. destruct (redirect w); [reflexivity|congruence]. Qed.

(** Events other than a filter change keep an exhausted list exhausted and
    request nothing. *)
Lemma quiet_step_exhausted w e :
  quiet e = true -> hasMore (view w) = false ->
  hasMore (view (step cfg w e)) = false
  ∧ issued (step cfg w e) = issued w
  ∧ filters (view (step cfg w e)) = filters (view w)
  ∧ redirect (step cfg w e) = redirect w
  ∧ controllers (step cfg w e) = controllers w.
Proof.
  intros Hq Hm. unfold step. destruct (redirect w) eqn:Hr; [auto|].
  destruct e as [f| |i res]; [discriminate| |].
  - rewrite Hm. auto.
  - destruct (issued w !! i) as [r|]; [|auto].
    destruct (bool_decide (i ∈ settled w)); [auto|].
    destruct (cancelled w r); [simpl; auto|].
    pose proof (resume_hasMore_false (req_snap r) (req_initialPage r) res (view w) Hm) as H1.
    pose proof (resume_filters (req_snap r) (req_initialPage r) res (view w)) as H2.
    destruct (fetchTeams_resume _ _ _ _ _) as [v ts]. simpl in *. auto.
Qed.

Lemma quiet_run_exhausted evs : forall w,
  Forall (fun e => quiet e = true) evs -> hasMore (view w) = false ->
  hasMore (view (fold_left (step cfg) evs w)) = false
  ∧ issued (fold_left (step cfg) evs w) = issued w
  ∧ filters (view (fold_left (step cfg) evs w)) = filters (view w)
  ∧ redirect (fold_left (step cfg) evs w) = redirect w
  ∧ controllers (fold_left (step cfg) evs w) = controllers w.
Proof.
  induction evs as [|e evs IH]; intros w Hq Hm; [simpl; auto|].
  inversion Hq as [|? ? He Hrest]; subst. simpl.
  destruct (quiet_step_exhausted w e He Hm) as (H1 & H2 & H3 & H4 & H5).
  destruct (IH (step cfg w e) Hrest H1) as (G1 & G2 & G3 & G4 & G5).
  rewrite G2, G3, G4, G5. auto.
Qed.

(** A change of the filters, on a page that has a hackathon to show. *)
Lemma step_filter_change w f :
  hackathon_id cfg <> "" -> redirect w = None -> f <> filters (view w) ->
  let snap := setFilters f (view w) in
  let w' := step cfg w (FilterChange f) in
  view w' = setLoading true (setHasMore true (setTeams [] (setPage 1 snap)))
  ∧ issued w' = issued w ++ [fetchTeams_call cfg snap (Some (controllers w)) (Some 1)]
  ∧ settled w' = settled w
  ∧ aborted w' = match cleanup w with
                 | Some c => {[c]} ∪ aborted w
                 | None => aborted w
                 end
  ∧ cleanup w' = Some (controllers w)
  ∧ controllers w' = S (controllers w)
  ∧ toasts w' = toasts w
  ∧ redirect w' = None.
Proof.
  intros Hid Hr Hf. unfold step. rewrite Hr.
  rewrite bool_decide_eq_false_2 by assumption.
  unfold effect. rewrite bool_decide_eq_false_2 by assumption.
  unfold run_cleanup. simpl. destruct (cleanup w); simpl; auto 10.
Qed.

Lemma step_scroll w :
  redirect w = None -> hasMore (view w) = true ->
  step cfg w Scroll =
    with_issued (issued w ++ [fetchTeams_call cfg (view w) None None]) w.
Proof. intros Hr Hm. unfold step. rewrite Hr, Hm. reflexivity. Qed.

(** *** The invariant *)

Lemma inv_blank_effect : inv (mount cfg).
Proof.
  unfold mount, effect, inv. simpl.
  destruct (bool_decide (hackathon_id cfg = "")); simpl; [discriminate|].
  intros _. split; [lia|]. split; [intros _; reflexivity|].
  split.
  - repeat constructor.
  - repeat split; simpl.
    + intros i Hi. set_solver.
    + intros c Hc. set_solver.
    + intros c [= <-]. lia.
    + intros r c Hr Hc. apply list_elem_of_singleton in Hr. subst r.
      simpl in Hc. injection Hc as <-. lia.
Qed.

Lemma well_formed_issue w r :
  well_formed w -> req_signal r = None ->
  well_formed (with_issued (issued w ++ [r]) w).
Proof.
  intros (H1 & H2 & H3 & H4) Hs. repeat split; simpl.
  - intros i Hi. rewrite length_app. specialize (H1 i Hi). simpl. lia.
  - exact H2.
  - exact H3.
  - intros r' c [Hr|Hr]%elem_of_app Hc; [eauto|].
    apply list_elem_of_singleton in Hr. subst r'. congruence.
Qed.

Lemma inv_step w e : inv w -> inv (step cfg w e).
Proof.
  intros Hinv. destruct (redirect w) as [u|] eqn:Hr.
  { rewrite step_redirected by congruence. exact Hinv. }
  destruct (Hinv Hr) as (Hp & He & Hq & Hwf).
  destruct e as [f| |i res].
  - (* the filters change *)
    destruct (decide (f = filters (view w))) as [->|Hf].
    { unfold step. rewrite Hr, bool_decide_eq_true_2 by reflexivity. exact Hinv. }
    destruct (decide (hackathon_id cfg = "")) as [Hid|Hid].
    { unfold step, effect. rewrite Hr, bool_decide_eq_false_2 by assumption.
      rewrite (bool_decide_eq_true_2 _ Hid). intros Hn. simpl in Hn. discriminate. }
    destruct (step_filter_change w f Hid Hr Hf)
      as (Hv & Hi & Hs & Ha & Hc & Hn & _ & _).
    intros _. rewrite Hv. simpl. split; [lia|].
    split; [intros _; reflexivity|]. split.
    + rewrite Hi. apply Forall_app. split; [exact Hq|].
      constructor; [left; reflexivity|constructor].
    + destruct Hwf as (H1 & H2 & H3 & H4).
      repeat split; rewrite ?Hi, ?Hs, ?Ha, ?Hc, ?Hn.
      * intros j Hj. rewrite length_app. specialize (H1 j Hj). simpl. lia.
      * intros c Hin. destruct (cleanup w) as [c0|] eqn:Hcl.
        -- apply elem_of_union in Hin as [Hin|Hin].
           ++ apply elem_of_singleton in Hin. subst c. specialize (H3 c0 eq_refl). lia.
           ++ specialize (H2 c Hin). lia.
        -- specialize (H2 c Hin). lia.
      * intros c [= <-]. lia.
      * intros r c [Hin|Hin]%elem_of_app Hsig.
        -- specialize (H4 r c Hin Hsig). lia.
        -- apply list_elem_of_singleton in Hin. subst r. simpl in Hsig.
           injection Hsig as <-. lia.
  - (* a scroll *)
    destruct (hasMore (view w)) eqn:Hm.
    + rewrite step_scroll by assumption. intros _. simpl.
      split; [exact Hp|]. split; [exact He|]. split.
      * apply Forall_app. split; [exact Hq|].
        constructor; [right; auto|constructor].
      * apply well_formed_issue; [exact Hwf|reflexivity].
    + unfold step. rewrite Hr, Hm. exact Hinv.
  - (* a response *)
    unfold step. rewrite Hr.
    destruct (issued w !! i) as [r|] eqn:Hi; [|exact Hinv].
    destruct (bool_decide (i ∈ settled w)); [exact Hinv|].
    assert (Hwf' : well_formed (with_settled ({[i]} ∪ settled w) w)).
    { destruct Hwf as (H1 & H2 & H3 & H4). repeat split; simpl; auto.
      intros j [Hj|Hj]%elem_of_union; [|auto].
      apply elem_of_singleton in Hj. subst j.
      apply lookup_lt_Some in Hi. exact Hi. }
    destruct (cancelled w r).
    { intros _. simpl. auto. }
    destruct (decide (statusCode res = 200)) as [Hok|Hne].
    + rewrite resume_success by assumption. intros _. simpl.
      split; [lia|]. split; [|auto].
      unfold page_one_empty. simpl. lia.
    + rewrite resume_failure by assumption. intros _. simpl. auto.
Qed.

Lemma inv_fold evs : forall w, inv w -> inv (fold_left (step cfg) evs w).
Proof.
  induction evs as [|e evs IH]; intros w Hw; [exact Hw|].
  simpl. apply IH, inv_step, Hw.
Qed.

Lemma inv_run evs : inv (run cfg evs).
Proof. apply inv_fold, inv_blank_effect. Qed.

(** Every request on record was built by [fetchTeams] from its snapshot. *)

Lemma built_step w e :
  (∀ r, r ∈ issued w -> built_by_fetchTeams cfg r) ->
  ∀ r, r ∈ issued (step cfg w e) -> built_by_fetchTeams cfg r.
Proof.
  intros Hw r. unfold step. destruct (redirect w); [apply Hw|].
  destruct e as [f| |i res].
  - destruct (bool_decide (f = filters (view w))); [apply Hw|].
    unfold effect, run_cleanup. simpl.
    destruct (bool_decide (hackathon_id cfg = "")), (cleanup w); simpl;
      try apply Hw;
      intros [Hin|Hin]%elem_of_app; try (apply Hw; exact Hin);
      apply list_elem_of_singleton in Hin; subst r; reflexivity.
  - destruct (hasMore (view w)); [|apply Hw]. simpl.
    intros [Hin|Hin]%elem_of_app; [apply Hw; exact Hin|].
    apply list_elem_of_singleton in Hin. subst r. reflexivity.
  - destruct (issued w !! i) as [r'|]; [|apply Hw].
    destruct (bool_decide (i ∈ settled w)); [apply Hw|].
    destruct (cancelled w r'); [apply Hw|].
    destruct (fetchTeams_resume _ _ _ _ _). apply Hw.
Qed.

Lemma built_fold evs : forall w,
  (∀ r, r ∈ issued w -> built_by_fetchTeams cfg r) ->
  ∀ r, r ∈ issued (fold_left (step cfg) evs w) -> built_by_fetchTeams cfg r.
Proof.
  induction evs as [|e evs IH]; intros w Hw; [exact Hw|].
  simpl. apply IH, built_step, Hw.
Qed.

Lemma issued_by_fetchTeams evs r :
  r ∈ issued (run cfg evs) -> built_by_fetchTeams cfg r.
Proof.
  apply built_fold. clear r. unfold mount, effect. simpl.
  destruct (bool_decide (hackathon_id cfg = "")); simpl.
  - intros r0 H0. inversion H0.
  - intros r0 H0%list_elem_of_singleton. subst r0. reflexivity.
Qed.

End DashboardFacts.

(** ** The claims about the admin live page *)

Import Dashboard Invariants.


Lemma append_assoc (a b c : string) : (a +:+ b) +:+ c = a +:+ (b +:+ c).
Proof.
  induction a as [|x a IH]; [reflexivity|].
  change (String x ((a +:+ b) +:+ c) = String x (a +:+ (b +:+ c))).
  f_equal. exact IH.
Qed.


#[local] Arguments Js.show : simpl never.


(** What a successful response stores. For every sequence of events the
    page can go through and every successful response to a teams fetch still awaited:
    if the page requested is page 1 the held list becomes the returned
    items, and for any other page it becomes the list the fetch held (the
    [teams] of the render that issued it) followed by the returned items. *)
Theorem page_one_replaces_later_pages_append (cfg : Config)
    (evs : list Event) (i : nat) (r : Request)
    (res : Response (list HackathonTeam)) :
  awaiting (run cfg evs) i = Some r ->
  statusCode res = 200 ->
  let returned := default [] (body res) in
  let w' := step cfg (run cfg evs) (Resolve i res) in
  (requestedPage (req_snap r) (req_initialPage r) = 1 ->
     teams (view w') = returned)
  ∧ (requestedPage (req_snap r) (req_initialPage r) ≠ 1 ->
     teams (view w') = teams (req_snap r) ++ returned).
Proof.
  intros Haw Hok returned w'. subst w'.
  rewrite (step_resolve cfg _ _ _ _ Haw), (resume_success cfg) by assumption.
  apply awaiting_inv in Haw as (Hr & Hi & _ & _).
  destruct (inv_run cfg evs Hr) as (_ & _ & Hq & _).
  rewrite Forall_lookup in Hq. specialize (Hq i r Hi).
  destruct Hq as [Hip|(Hip & _ & He)]; rewrite Hip; cbn.
  - split; [reflexivity|]. intros Hne. contradiction Hne. reflexivity.
  - split.
    + intros Hp. rewrite (He Hp). reflexivity.
    + reflexivity.
Qed.

(** A scroll fetch whose response arrives before anything else happens
    appends to the list on screen. *)
Lemma scroll_fetch_appends (cfg : Config) (evs : list Event)
    (res : Response (list HackathonTeam)) :
  redirect (run cfg evs) = None ->
  hasMore (view (run cfg evs)) = true ->
  statusCode res = 200 ->
  teams (view (scroll_then_resolve cfg (run cfg evs) res))
    = teams (view (run cfg evs)) ++ default [] (body res).
Proof.
  intros Hr Hm Hok. unfold scroll_then_resolve.
  rewrite step_scroll by assumption.
  destruct (inv_run cfg evs Hr) as (_ & _ & _ & Hwf & _).
  set (w := run cfg evs) in *.
  set (r := fetchTeams_call cfg (view w) None None).
  assert (Haw : awaiting (with_issued (issued w ++ [r]) w) (length (issued w)) = Some r).
  { unfold awaiting. cbn. rewrite Hr.
    rewrite lookup_app_r, Nat.sub_diag by lia. cbn.
    rewrite bool_decide_eq_false_2; [reflexivity|].
    intros Hin. specialize (Hwf _ Hin). lia. }
  rewrite (step_resolve cfg _ _ _ _ Haw), (resume_success cfg) by assumption.
  reflexivity.
Qed.

(** C3. For every held list and every appended page of results (a
    successful response taken by the append branch): if the combined length
    equals the length before appending, [hasMore] becomes false; it stays
    false and no request is issued through every sequence of events that
    contains no filter change; and a filter change then sets [hasMore] back
    to true and issues a fetch of page 1 under the new filters. *)
Theorem no_growth_exhausts_until_filter_change (cfg : Config) (w : World)
    (i : nat) (r : Request) (res : Response (list HackathonTeam)) :
  hackathon_id cfg ≠ "" ->
  awaiting w i = Some r ->
  statusCode res = 200 ->
  Js.eq_one (req_initialPage r) = false ->
  length (teams (req_snap r) ++ default [] (body res))
    = length (teams (req_snap r)) ->
  let w1 := step cfg w (Resolve i res) in
  hasMore (view w1) = false
  ∧ (∀ evs, Forall (fun e => quiet e = true) evs ->
       hasMore (view (fold_left (step cfg) evs w1)) = false
       ∧ issued (fold_left (step cfg) evs w1) = issued w1)
  ∧ (∀ evs f, Forall (fun e => quiet e = true) evs ->
       f ≠ filters (view w1) ->
       let w2 := step cfg (fold_left (step cfg) evs w1) (FilterChange f) in
       hasMore (view w2) = true
       ∧ ∃ r1, issued w2 = issued w1 ++ [r1]
           ∧ req_initialPage r1 = Some 1
           ∧ requestedPage (req_snap r1) (req_initialPage r1) = 1
           ∧ filters (req_snap r1) = f).
Proof.
  intros Hid Haw Hok Hip Hlen w1.
  assert (Hm : hasMore (view w1) = false).
  { subst w1. rewrite (step_resolve cfg _ _ _ _ Haw), (resume_success cfg) by assumption.
    cbn. rewrite Hip, Hlen, Nat.eqb_refl. reflexivity. }
  assert (Hr : redirect w1 = None).
  { subst w1. rewrite (step_resolve cfg _ _ _ _ Haw). cbn.
    apply awaiting_inv in Haw. tauto. }
  split; [exact Hm|]. split.
  - intros evs Hq.
    destruct (quiet_run_exhausted cfg evs w1 Hq Hm) as (H1 & H2 & _). auto.
  - intros evs f Hq Hf w2.
    destruct (quiet_run_exhausted cfg evs w1 Hq Hm) as (_ & H2 & H3 & H4 & _).
    rewrite Hr in H4. rewrite <- H3 in Hf.
    destruct (step_filter_change cfg _ f Hid H4 Hf) as (Hv & Hi & _).
    subst w2. rewrite Hv, Hi, H2. split; [reflexivity|].
    eexists. split; [reflexivity|]. cbn. auto.
Qed.

(** C7. For every teams fetch that receives a response whose status is not
    200: the server's message is shown as an error toast when it is present
    (and not empty), the generic [SERVER_ERROR] text otherwise, and the held
    list, the page counter and [hasMore] (every state cell, in fact) are
    left as they were. *)
Theorem failed_fetch_toasts_and_keeps_state (cfg : Config) (w : World)
    (i : nat) (r : Request) (res : Response (list HackathonTeam)) :
  awaiting w i = Some r ->
  statusCode res ≠ 200 ->
  let w' := step cfg w (Resolve i res) in
  view w' = view w
  ∧ teams (view w') = teams (view w)
  ∧ page (view w') = page (view w)
  ∧ hasMore (view w') = hasMore (view w)
  ∧ (∀ m, message res = Some m -> m ≠ "" ->
       toasts w' = toasts w ++ [ToastError m])
  ∧ (message res = None ∨ message res = Some "" ->
       toasts w' = toasts w ++ [ToastError (SERVER_ERROR cfg)]).
Proof.
  intros Haw Hne w'. subst w'.
  rewrite (step_resolve cfg _ _ _ _ Haw), (resume_failure cfg) by assumption.
  cbn. repeat split.
  - intros m Hm Hmne. rewrite Hm. cbn.
    destruct (String.eqb_spec m ""); [contradiction|reflexivity].
  - intros [Hm|Hm]; rewrite Hm; reflexivity.
Qed.

(** C9, as the code has it. A fetch started with [initialPage] 1 (the
    fetch the filter effect makes) never changes [hasMore], whatever the
    response: the exhaustion check belongs to the append branch alone. So
    when such a fetch succeeds with zero teams while [hasMore] is true, the
    list is empty, [hasMore] is still true, and the next scroll issues a
    further fetch. *)
Theorem first_page_fetch_keeps_hasMore (cfg : Config) (w : World)
    (i : nat) (r : Request) (res : Response (list HackathonTeam)) :
  awaiting w i = Some r ->
  req_initialPage r = Some 1 ->
  let w' := step cfg w (Resolve i res) in
  hasMore (view w') = hasMore (view w)
  ∧ (statusCode res = 200 -> default [] (body res) = [] ->
     hasMore (view w) = true ->
     teams (view w') = []
     ∧ hasMore (view w') = true
     ∧ issued (step cfg w' Scroll)
         = issued w' ++ [fetchTeams_call cfg (view w') None None]).
Proof.
  intros Haw Hip w'. subst w'.
  rewrite (step_resolve cfg _ _ _ _ Haw).
  pose proof (awaiting_inv _ _ _ Haw) as (Hr & _).
  split.
  - destruct (decide (statusCode res = 200)) as [Hok|Hne].
    + rewrite (resume_success cfg) by assumption. rewrite Hip. reflexivity.
    + rewrite (resume_failure cfg) by assumption. reflexivity.
  - intros Hok Hnil Hm.
    rewrite (resume_success cfg) by assumption. rewrite Hip. cbn.
    rewrite Hnil, Hm. repeat split.
    unfold step. cbn. rewrite Hr. reflexivity.
Qed.

(** *** Pages in sequence *)

Lemma step_stays (cfg : Config) (w : World) (e : Event) :
  hackathon_id cfg ≠ "" -> redirect w = None -> redirect (step cfg w e) = None.
Proof.
  intros Hid Hr. unfold step. rewrite Hr. destruct e as [f| |i res].
  - destruct (bool_decide (f = filters (view w))); [exact Hr|].
    unfold effect. rewrite bool_decide_eq_false_2 by assumption.
    unfold run_cleanup. cbn. destruct (cleanup w); exact Hr.
  - destruct (hasMore (view w)); exact Hr.
  - destruct (issued w !! i) as [r|]; [|exact Hr].
    destruct (bool_decide (i ∈ settled w)); [exact Hr|].
    destruct (cancelled w r); [exact Hr|].
    destruct (fetchTeams_resume _ _ _ _ _). exact Hr.
Qed.

Lemma never_redirected (cfg : Config) (evs : list Event) :
  hackathon_id cfg ≠ "" -> redirect (run cfg evs) = None.
Proof.
  intros Hid. unfold run.
  assert (Hm : redirect (mount cfg) = None).
  { unfold mount, effect. rewrite bool_decide_eq_false_2 by assumption. reflexivity. }
  revert Hm. generalize (mount cfg).
  induction evs as [|e evs IH]; intros w Hw; [exact Hw|].
  cbn. apply IH, step_stays; assumption.
Qed.

(** The request just put on record is awaited. *)
Lemma awaiting_fresh (w : World) (r : Request) :
  redirect w = None -> well_formed w -> cancelled w r = false ->
  awaiting (with_issued (issued w ++ [r]) w) (length (issued w)) = Some r.
Proof.
  intros Hr (Hs & _) Hc. unfold awaiting. cbn. rewrite Hr.
  rewrite lookup_app_r, Nat.sub_diag by lia. cbn.
  rewrite bool_decide_eq_false_2.
  - change (cancelled (with_issued (issued w ++ [r]) w) r) with (cancelled w r).
    rewrite Hc. reflexivity.
  - intros Hin. specialize (Hs _ Hin). lia.
Qed.

(** The fetch of a filter change is awaited, and it asks for page 1. *)
Lemma filter_change_awaited (cfg : Config) (w : World) (f : Filters) :
  hackathon_id cfg ≠ "" -> redirect w = None -> well_formed w ->
  f ≠ filters (view w) ->
  let r1 := fetchTeams_call cfg (setFilters f (view w)) (Some (controllers w)) (Some 1) in
  awaiting (step cfg w (FilterChange f)) (length (issued w)) = Some r1.
Proof.
  intros Hid Hr (Hs & Ha & Hc & _) Hf r1.
  destruct (step_filter_change cfg w f Hid Hr Hf)
    as (_ & Hi & Hst & Hab & _ & _ & _ & Hrd).
  unfold awaiting. rewrite Hrd, Hi.
  rewrite lookup_app_r, Nat.sub_diag by lia. cbn.
  rewrite Hst, bool_decide_eq_false_2.
  - unfold cancelled. cbn. rewrite Hab, bool_decide_eq_false_2; [reflexivity|].
    destruct (cleanup w) as [c|] eqn:Hcl.
    + intros [Hin|Hin]%elem_of_union.
      * apply elem_of_singleton in Hin. specialize (Hc c eq_refl). lia.
      * specialize (Ha _ Hin). lia.
    + intros Hin. specialize (Ha _ Hin). lia.
  - intros Hin. specialize (Hs _ Hin). lia.
Qed.

(** One scroll fetch that succeeds with at least one team. *)
Lemma scroll_round (cfg : Config) (w : World)
    (res : Response (list HackathonTeam)) :
  inv w -> redirect w = None -> hasMore (view w) = true ->
  statusCode res = 200 -> default [] (body res) ≠ [] ->
  let w' := scroll_then_resolve cfg w res in
  inv w' ∧ redirect w' = None ∧ hasMore (view w') = true
  ∧ page (view w') = page (view w) + 1.
Proof.
  intros Hinv Hr Hm Hok Hne w'. subst w'. split.
  { unfold scroll_then_resolve. apply inv_step, inv_step, Hinv. }
  unfold scroll_then_resolve. rewrite step_scroll by assumption.
  destruct (Hinv Hr) as (_ & _ & _ & Hwf).
  pose proof (awaiting_fresh w (fetchTeams_call cfg (view w) None None) Hr Hwf eq_refl) as Haw.
  rewrite (step_resolve cfg _ _ _ _ Haw), (resume_success cfg) by assumption.
  cbn. split; [exact Hr|]. split; [|reflexivity].
  rewrite length_app.
  destruct (default [] (body res)) as [|t got]; [contradiction|].
  cbn [length]. replace (length (teams (view w)) + S (length got) =? length (teams (view w)))%nat with false.
  - exact Hm.
  - symmetry. apply Nat.eqb_neq. lia.
Qed.

Lemma scroll_rounds (cfg : Config) (ress : list (Response (list HackathonTeam))) :
  ∀ w, inv w -> redirect w = None -> hasMore (view w) = true ->
  Forall (fun res => statusCode res = 200 ∧ default [] (body res) ≠ []) ress ->
  let wn := fold_left (scroll_then_resolve cfg) ress w in
  inv wn ∧ redirect wn = None ∧ hasMore (view wn) = true
  ∧ page (view wn) = page (view w) + Z.of_nat (length ress).
Proof.
  induction ress as [|res ress IH]; intros w Hinv Hr Hm Hall wn; subst wn.
  - cbn [fold_left length]. split; [exact Hinv|]. split; [exact Hr|].
    split; [exact Hm|]. lia.
  - inversion Hall as [|? ? [Hok Hne] Hrest]; subst.
    destruct (scroll_round cfg w res Hinv Hr Hm Hok Hne) as (H1 & H2 & H3 & H4).
    destruct (IH _ H1 H2 H3 Hrest) as (G1 & G2 & G3 & G4).
    cbn [fold_left]. split; [exact G1|]. split; [exact G2|].
    split; [exact G3|]. rewrite G4, H4. cbn [length]. lia.
Qed.

(** C9, as stated, fails for a fetch of page 1 that a scroll makes. When
    the fetch of the effect fails the counter stays at 1, and a scroll then
    asks for page 1 again, this time through the append branch: answered
    with zero teams it marks the list exhausted. *)
Example scroll_fetch_of_page_one_can_exhaust :
  let w := run Samples.cfg0 [Resolve 0 (Samples.failed 500 None); Scroll] in
  (∃ r, awaiting w 1 = Some r
        ∧ requestedPage (req_snap r) (req_initialPage r) = 1
        ∧ req_initialPage r = None)
  ∧ hasMore (view w) = true
  ∧ hasMore (view (step Samples.cfg0 w (Resolve 1 (Samples.ok [])))) = false.
Proof.
  cbv zeta. split; [eexists; split; [vm_compute; reflexivity|split; reflexivity]|].
  split; vm_compute; reflexivity.
Qed.

(** C10, as the code has it. Every successful teams fetch adds exactly one
    to the page counter, whichever page it asked for. A filter change sets
    the counter to 1 and asks for page 1; once that fetch has succeeded,
    scroll fetches that are each answered with success before the next is
    made (each returning at least one team, so that scrolling goes on, and
    no other response in between) ask for pages 2, 3, 4, ...: after [n] of them the
    counter is [n + 2] and the next scroll asks for page [n + 2]. *)
Theorem successive_fetches_request_consecutive_pages (cfg : Config)
    (evs : list Event) (f : Filters) (res0 : Response (list HackathonTeam))
    (ress : list (Response (list HackathonTeam))) :
  hackathon_id cfg ≠ "" ->
  f ≠ filters (view (run cfg evs)) ->
  statusCode res0 = 200 ->
  Forall (fun res => statusCode res = 200 ∧ default [] (body res) ≠ []) ress ->
  let w := run cfg evs in
  let w1 := step cfg w (FilterChange f) in
  let w2 := step cfg w1 (Resolve (length (issued w)) res0) in
  let wn := fold_left (scroll_then_resolve cfg) ress w2 in
  (∀ w0 i r res, awaiting w0 i = Some r -> statusCode res = 200 ->
     page (view (step cfg w0 (Resolve i res))) = page (view w0) + 1)
  ∧ page (view w1) = 1
  ∧ (∃ r1, awaiting w1 (length (issued w)) = Some r1
        ∧ requestedPage (req_snap r1) (req_initialPage r1) = 1)
  ∧ page (view wn) = Z.of_nat (length ress) + 2
  ∧ (∃ rn, awaiting (step cfg wn Scroll) (length (issued wn)) = Some rn
        ∧ requestedPage (req_snap rn) (req_initialPage rn)
            = Z.of_nat (length ress) + 2).
Proof.
  intros Hid Hf Hok0 Hall w w1 w2 wn.
  assert (Hr : redirect w = None) by (apply never_redirected; exact Hid).
  pose proof (inv_run cfg evs) as Hinv. fold w in Hinv.
  destruct (Hinv Hr) as (_ & _ & _ & Hwf).
  destruct (step_filter_change cfg w f Hid Hr Hf) as (Hv & _ & _ & _ & _ & _ & _ & Hr1).
  pose proof (filter_change_awaited cfg w f Hid Hr Hwf Hf) as Haw1.
  fold w1 in Hv, Hr1, Haw1. cbn zeta in Haw1.
  assert (Hstep : ∀ w0 i r res, awaiting w0 i = Some r -> statusCode res = 200 ->
            page (view (step cfg w0 (Resolve i res))) = page (view w0) + 1).
  { intros w0 i r res Haw Hok.
    rewrite (step_resolve cfg _ _ _ _ Haw), (resume_success cfg) by assumption.
    reflexivity. }
  split; [exact Hstep|].
  split; [rewrite Hv; reflexivity|].
  split; [eexists; split; [exact Haw1|reflexivity]|].
  assert (Hinv2 : inv w2) by (apply inv_step, inv_step, Hinv).
  assert (Hr2 : redirect w2 = None) by (apply step_stays; assumption).
  assert (Hp2 : page (view w2) = 2).
  { subst w2. rewrite (Hstep _ _ _ _ Haw1 Hok0), Hv. reflexivity. }
  assert (Hm2 : hasMore (view w2) = true).
  { subst w2. rewrite (step_resolve cfg _ _ _ _ Haw1), (resume_success cfg) by assumption.
    cbn. rewrite Hv. reflexivity. }
  destruct (scroll_rounds cfg ress w2 Hinv2 Hr2 Hm2 Hall) as (Hin & Hrn & Hmn & Hpn).
  fold wn in Hin, Hrn, Hmn, Hpn.
  split; [lia|].
  rewrite step_scroll by assumption.
  destruct (Hin Hrn) as (_ & _ & _ & Hwfn).
  eexists. split.
  - apply awaiting_fresh; [assumption|assumption|reflexivity].
  - cbn. unfold requestedPage. cbn. lia.
Qed.

(** The fetch that the filter effect issued is cancelled when the filters
    change again: the clean-up of the effect aborts its controller. *)
Lemma superseded_effect_fetch_cancelled (cfg : Config) (w : World)
    (f : Filters) (c i : nat) (r : Request) :
  hackathon_id cfg ≠ "" -> redirect w = None -> f ≠ filters (view w) ->
  cleanup w = Some c -> issued w !! i = Some r -> req_signal r = Some c ->
  awaiting (step cfg w (FilterChange f)) i = None.
Proof.
  intros Hid Hr Hf Hc Hi Hs.
  destruct (step_filter_change cfg w f Hid Hr Hf)
    as (_ & Hiss & _ & Hab & _ & _ & _ & Hrd).
  unfold awaiting. rewrite Hrd, Hiss.
  rewrite lookup_app_l by (apply lookup_lt_Some in Hi; exact Hi).
  rewrite Hi. unfold cancelled. rewrite Hs, Hab, Hc.
  rewrite (bool_decide_eq_true_2 (c ∈ {[c]} ∪ aborted w)), orb_true_r.
  - reflexivity.
  - apply elem_of_union. left. apply elem_of_singleton. reflexivity.
Qed.

(** C6, as the code has it. Under the initial filters the first page
    arrives and a scroll fetch for page 2 is issued; the filters change
    before it is answered. The fetch of the effect is cancelled by the
    clean-up, but the scroll fetch was started by [next={fetchTeams}]
    without an abort controller: it is still awaited after the change, and
    when its response arrives after the first page of the new filters, the
    list shown under the new filters is the old list plus the stale page. *)
Theorem stale_scroll_response_overwrites_new_filter :
  let before := run Samples.cfg0 Samples.superseding_trace in
  let after := step Samples.cfg0 before (Resolve 1 (Samples.ok [Samples.team "a2"])) in
  elements (aborted before) = [0%nat]
  ∧ (∃ r, awaiting before 1 = Some r
        ∧ req_signal r = None
        ∧ filters (req_snap r) = initialFilters)
  ∧ filters (view before) = Samples.filtersB
  ∧ teams (view before) = [Samples.team "b1"]
  ∧ filters (view after) = Samples.filtersB
  ∧ teams (view after) = [Samples.team "a1"; Samples.team "a2"].
Proof.
  cbv zeta. split; [vm_compute; reflexivity|].
  split; [eexists; split; [vm_compute; reflexivity|split; reflexivity]|].
  repeat split; vm_compute; reflexivity.
Qed.

(** ** The claims about the repository form *)

Import Repositories.

Lemma isValid_spec (isURL : string -> bool) (s : Form) :
  isValid isURL s = true ↔ ∀ repo, repo ∈ newRepos s -> isURL repo = true.
Proof.
  unfold isValid. rewrite forallb_forall.
  split; intros H repo Hin; apply H; apply list_elem_of_In; exact Hin.
Qed.

(** C2, as the code has it. For every list of URL entries and every
    validator: the submit button is there and enabled if and only if the
    list is not empty and every entry, an empty one included, passes
    [isURL]. In particular an empty list is never submittable, and with a
    validator that rejects the empty string neither is a list that holds an
    empty entry. *)
Theorem submit_enabled_iff_every_entry_valid (isURL : string -> bool)
    (s : Form) :
  (submitEnabled isURL s = true
     ↔ newRepos s ≠ [] ∧ ∀ repo, repo ∈ newRepos s -> isURL repo = true)
  ∧ (newRepos s = [] -> submitEnabled isURL s = false)
  ∧ (isURL "" = false -> "" ∈ newRepos s -> submitEnabled isURL s = false).
Proof.
  assert (Hiff : submitEnabled isURL s = true
            ↔ newRepos s ≠ [] ∧ ∀ repo, repo ∈ newRepos s -> isURL repo = true).
  { unfold submitEnabled, submitShown. rewrite negb_involutive, andb_true_iff.
    rewrite isValid_spec, Nat.ltb_lt.
    destruct (newRepos s) as [|x l]; cbn [length]; split; intros [H1 H2];
      (split; [|exact H2]); [lia|congruence|discriminate|lia]. }
  split; [exact Hiff|]. split.
  - intros Hnil. apply not_true_is_false. rewrite Hiff. tauto.
  - intros He Hin. apply not_true_is_false. rewrite Hiff.
    intros [_ Hall]. specialize (Hall "" Hin). congruence.
Qed.

(** C2, as stated, fails on the form as it first renders: its one entry is
    empty, so every non-empty entry is trivially valid, yet for every
    validator that rejects the empty string (as [isURL] does) the submit
    button is disabled. *)
Lemma initial_form_not_submittable :
  newRepos initialForm = [""]
  ∧ (∀ (isURL : string -> bool) repo,
       repo ∈ newRepos initialForm -> repo ≠ "" -> isURL repo = true)
  ∧ (∀ isURL : string -> bool,
       isURL "" = false -> submitEnabled isURL initialForm = false).
Proof.
  split; [reflexivity|]. split.
  - intros isURL repo Hin Hne. cbn in Hin.
    apply list_elem_of_singleton in Hin. contradiction.
  - intros isURL He. unfold submitEnabled, isValid. cbn. rewrite He. reflexivity.
Qed.

Lemma filter_removes_exactly {A : Type} (keep : A -> bool) (l : list A) :
  Spec.removes_exactly (fun x => keep x = false) l (List.filter keep l).
Proof.
  induction l as [|x l IH]; cbn; [constructor|].
  destruct (keep x) eqn:Hk.
  - apply Spec.removes_keep; [congruence|exact IH].
  - apply Spec.removes_drop; [exact Hk|exact IH].
Qed.

Lemma removes_exactly_ext {A : Type} (P Q : A -> Prop) (l l' : list A) :
  (∀ x, P x ↔ Q x) -> Spec.removes_exactly P l l' -> Spec.removes_exactly Q l l'.
Proof.
  intros HPQ H. induction H as [|x l l' Hx _ IH|x l l' Hx _ IH].
  - constructor.
  - apply Spec.removes_drop; [apply HPQ; exact Hx|exact IH].
  - apply Spec.removes_keep; [rewrite <- HPQ; exact Hx|exact IH].
Qed.

(** The list a successful deletion stores, whatever happened in between. *)
Lemma delete_stores_filtered (snap cur : Form) (repo : string)
    (res : Response unit) :
  statusCode res = 200 ->
  Spec.removes_exactly (fun r => id r = repo) (githubRepos snap)
    (githubRepos (handleRepoDelete_resume snap repo (Returned res) cur).1).
Proof.
  intros Hok. unfold handleRepoDelete_resume. rewrite Hok. cbn.
  eapply removes_exactly_ext; [|apply filter_removes_exactly].
  intros r. cbn. rewrite negb_false_iff. apply String.eqb_eq.
Qed.

(** A deletion that is answered before anything else changes the list.
    For every held list of linked repositories and every repository
    identifier, a deletion answered with status 200 stores the held list
    without the entries whose identifier equals the given one: exactly
    those are removed, every other entry stays, in its original order; an
    entry is in the new list if and only if it was in the old one under
    another identifier. Nothing else of the form changes and the success
    toast is shown. *)
Theorem delete_removes_exactly_matching (s : Form) (repo : string)
    (res : Response unit) :
  statusCode res = 200 ->
  let s' := (handleRepoDelete s repo (Returned res)).1 in
  Spec.removes_exactly (fun r => id r = repo) (githubRepos s) (githubRepos s')
  ∧ (∀ r, r ∈ githubRepos s' ↔ r ∈ githubRepos s ∧ id r ≠ repo)
  ∧ githubRepos s' `sublist_of` githubRepos s
  ∧ newRepos s' = newRepos s ∧ error s' = error s
  ∧ (handleRepoDelete s repo (Returned res)).2
      = [ToastSuccess "Repository deleted successfully"].
Proof.
  intros Hok s'. split.
  { apply delete_stores_filtered. exact Hok. }
  subst s'. unfold handleRepoDelete, handleRepoDelete_resume. rewrite Hok. cbn.
  split; [|split; [|auto]].
  - intros r. rewrite !list_elem_of_In, filter_In, negb_true_iff.
    rewrite String.eqb_neq. reflexivity.
  - induction (githubRepos s) as [|x l IH]; cbn; [constructor|].
    destruct (negb (String.eqb (id x) repo)).
    + apply sublist_skip. exact IH.
    + apply sublist_cons. exact IH.
Qed.


(** A deletion whose request throws shows the inline error and removes
    nothing either. *)
Lemma thrown_delete_keeps_repositories (s : Form) (repo : string) :
  githubRepos (handleRepoDelete s repo Threw).1 = githubRepos s
  ∧ error (handleRepoDelete s repo Threw).1 = Some "Failed to delete repository".
Proof. split; reflexivity. Qed.

(** ** The claims at concrete inputs *)

Lemma page_one_replaces_later_pages_append_witness :
  awaiting (run Samples.cfg0 Samples.first_page_loaded) 1
    = Some Samples.second_page_request
  ∧ statusCode (Samples.ok [Samples.team "a2"]) = 200
  ∧ teams (view (step Samples.cfg0 (run Samples.cfg0 Samples.first_page_loaded)
                   (Resolve 1 (Samples.ok [Samples.team "a2"]))))
      = [Samples.team "a1"; Samples.team "a2"].
Proof.
  assert (H1 : awaiting (run Samples.cfg0 Samples.first_page_loaded) 1
               = Some Samples.second_page_request) by (vm_compute; reflexivity).
  assert (H2 : statusCode (Samples.ok [Samples.team "a2"]) = 200) by reflexivity.
  split; [exact H1|]. split; [exact H2|].
  apply (proj2 (page_one_replaces_later_pages_append Samples.cfg0
                  Samples.first_page_loaded 1 Samples.second_page_request
                  (Samples.ok [Samples.team "a2"]) H1 H2)).
  vm_compute. discriminate.
Defined.

Lemma no_growth_exhausts_until_filter_change_witness :
  hackathon_id Samples.cfg0 ≠ ""
  ∧ awaiting (run Samples.cfg0 Samples.first_page_loaded) 1
      = Some Samples.second_page_request
  ∧ hasMore (view (run Samples.cfg0 Samples.first_page_loaded)) = true
  ∧ hasMore (view (step Samples.cfg0 (run Samples.cfg0 Samples.first_page_loaded)
                     (Resolve 1 (Samples.ok [])))) = false.
Proof.
  assert (H0 : hackathon_id Samples.cfg0 ≠ "") by (vm_compute; discriminate).
  assert (H1 : awaiting (run Samples.cfg0 Samples.first_page_loaded) 1
               = Some Samples.second_page_request) by (vm_compute; reflexivity).
  split; [exact H0|]. split; [exact H1|]. split; [vm_compute; reflexivity|].
  apply (proj1 (no_growth_exhausts_until_filter_change Samples.cfg0
                  (run Samples.cfg0 Samples.first_page_loaded) 1
                  Samples.second_page_request (Samples.ok [])
                  H0 H1 eq_refl eq_refl eq_refl)).
Defined.

Lemma failed_fetch_toasts_and_keeps_state_witness :
  awaiting (run Samples.cfg0 Samples.first_page_loaded) 1
    = Some Samples.second_page_request
  ∧ statusCode (Samples.failed 403 (Some "Not allowed")) ≠ 200
  ∧ toasts (step Samples.cfg0 (run Samples.cfg0 Samples.first_page_loaded)
              (Resolve 1 (Samples.failed 403 (Some "Not allowed"))))
      = toasts (run Samples.cfg0 Samples.first_page_loaded)
          ++ [ToastError "Not allowed"].
Proof.
  assert (H1 : awaiting (run Samples.cfg0 Samples.first_page_loaded) 1
               = Some Samples.second_page_request) by (vm_compute; reflexivity).
  assert (H2 : statusCode (Samples.failed 403 (Some "Not allowed")) ≠ 200)
    by (vm_compute; discriminate).
  split; [exact H1|]. split; [exact H2|].
  apply (failed_fetch_toasts_and_keeps_state Samples.cfg0
           (run Samples.cfg0 Samples.first_page_loaded) 1
           Samples.second_page_request
           (Samples.failed 403 (Some "Not allowed")) H1 H2).
  - reflexivity.
  - vm_compute. discriminate.
Defined.

Lemma first_page_fetch_keeps_hasMore_witness :
  awaiting (mount Samples.cfg0) 0 = Some Samples.mount_request
  ∧ req_initialPage Samples.mount_request = Some 1
  ∧ hasMore (view (step Samples.cfg0 (mount Samples.cfg0)
                     (Resolve 0 (Samples.ok [])))) = true.
Proof.
  assert (H1 : awaiting (mount Samples.cfg0) 0 = Some Samples.mount_request)
    by (vm_compute; reflexivity).
  split; [exact H1|]. split; [reflexivity|].
  apply (proj2 (first_page_fetch_keeps_hasMore Samples.cfg0
                  (mount Samples.cfg0) 0 Samples.mount_request
                  (Samples.ok []) H1 eq_refl)); reflexivity.
Defined.

Lemma successive_fetches_request_consecutive_pages_witness :
  hackathon_id Samples.cfg0 ≠ ""
  ∧ Samples.filtersB ≠ filters (view (run Samples.cfg0 Samples.first_page_loaded))
  ∧ page (view (fold_left (scroll_then_resolve Samples.cfg0)
                  [Samples.ok [Samples.team "b2"]; Samples.ok [Samples.team "b3"]]
                  (step Samples.cfg0
                     (step Samples.cfg0
                        (run Samples.cfg0 Samples.first_page_loaded)
                        (FilterChange Samples.filtersB))
                     (Resolve 2 (Samples.ok [Samples.team "b1"])))))
      = 4.
Proof.
  assert (H0 : hackathon_id Samples.cfg0 ≠ "") by (vm_compute; discriminate).
  assert (H1 : Samples.filtersB
               ≠ filters (view (run Samples.cfg0 Samples.first_page_loaded)))
    by (vm_compute; discriminate).
  split; [exact H0|]. split; [exact H1|].
  apply (successive_fetches_request_consecutive_pages Samples.cfg0
           Samples.first_page_loaded Samples.filtersB
           (Samples.ok [Samples.team "b1"])
           [Samples.ok [Samples.team "b2"]; Samples.ok [Samples.team "b3"]]
           H0 H1 eq_refl).
  repeat constructor; discriminate.
Defined.

Lemma delete_removes_exactly_matching_witness :
  statusCode (mkResponse 200 (Some tt) None) = 200
  ∧ githubRepos
      (handleRepoDelete Samples.linked "r2"
         (Returned (mkResponse 200 (Some tt) None))).1
      `sublist_of` githubRepos Samples.linked.
Proof.
  split; [reflexivity|].
  apply (delete_removes_exactly_matching Samples.linked "r2"
           (mkResponse 200 (Some tt) None) eq_refl).
Defined.


(** ** Further properties of the teams list *)

Section TeamsListMore.

Import Dashboard Invariants Controllers.

Variable cfg : Config.

(** Without a hackathon id the page leaves at once and stays as it is. *)
Lemma run_without_id (evs : list Event) :
  hackathon_id cfg = "" -> run cfg evs = mount cfg.
Proof.
  intros Hid. unfold run.
  assert (Hm : redirect (mount cfg) ≠ None).
  { unfold mount, effect. rewrite (bool_decide_eq_true_2 _ Hid). discriminate. }
  induction evs as [|e evs IH]; [reflexivity|].
  cbn [fold_left]. rewrite step_redirected by exact Hm. exact IH.
Qed.

Lemma controllers_ok_mount : hackathon_id cfg ≠ "" -> controllers_ok (mount cfg).
Proof.
  intros Hid. unfold mount, effect.
  rewrite bool_decide_eq_false_2 by assumption.
  unfold controllers_ok. cbn. split; [reflexivity|]. split; [lia|]. split.
  { intros c. split; [intros Hc; set_solver|lia]. }
  split.
  - intros i r c Hi Hs. destruct i as [|i]; [|discriminate].
    injection Hi as <-. cbn in Hs. injection Hs as <-.
    split; [lia|]. split; [reflexivity|]. split; [reflexivity|].
    intros j r' Hj _. destruct j as [|j]; [reflexivity|discriminate].
  - intros r Hr%list_elem_of_singleton Hs. subst r. discriminate.
Qed.

Lemma controllers_ok_step (w : World) (e : Event) :
  hackathon_id cfg ≠ "" -> redirect w = None ->
  controllers_ok w -> controllers_ok (step cfg w e).
Proof.
  intros Hid Hr Hok. pose proof Hok as (Hc & Hn & Ha & Hi & Hs).
  destruct e as [f| |i res].
  - destruct (decide (f = filters (view w))) as [->|Hf].
    { unfold step. rewrite Hr, bool_decide_eq_true_2 by reflexivity. exact Hok. }
    destruct (step_filter_change cfg w f Hid Hr Hf)
      as (Hv & Hiss & _ & Hab & Hcl & Hct & _ & _).
    unfold controllers_ok. rewrite Hv, Hiss, Hab, Hcl, Hct, Hc. cbn.
    split; [reflexivity|]. split; [lia|]. split.
    { intros c. rewrite elem_of_union, elem_of_singleton, Ha. lia. }
    split.
    + intros j r c Hj Hsig.
      apply lookup_app_Some in Hj as [Hj|[Hlen Hj]].
      * destruct (Hi j r c Hj Hsig) as (H1 & H2 & _ & H4).
        split; [lia|]. split; [exact H2|]. split; [lia|].
        intros k r' Hk Hsig'.
        apply lookup_app_Some in Hk as [Hk|[Hlen' Hk]]; [eauto|].
        destruct (k - length (issued w))%nat; [|discriminate].
        injection Hk as <-. cbn in Hsig'. injection Hsig' as <-. lia.
      * destruct (j - length (issued w))%nat eqn:Hd; [|discriminate].
        injection Hj as <-. cbn in Hsig. injection Hsig as <-.
        split; [lia|]. split; [reflexivity|]. split; [reflexivity|].
        intros k r' Hk Hsig'.
        apply lookup_app_Some in Hk as [Hk|[Hlen' Hk]].
        -- destruct (Hi k r' _ Hk Hsig') as (H1 & _). lia.
        -- destruct (k - length (issued w))%nat eqn:Hd'; [lia|discriminate].
    + intros r [Hin|Hin]%elem_of_app Hsig; [eauto|].
      apply list_elem_of_singleton in Hin. subst r. discriminate.
  - destruct (hasMore (view w)) eqn:Hm.
    + rewrite step_scroll by assumption. unfold controllers_ok. cbn.
      split; [exact Hc|]. split; [exact Hn|]. split; [exact Ha|]. split.
      * intros j r c Hj Hsig.
        apply lookup_app_Some in Hj as [Hj|[Hlen Hj]].
        -- destruct (Hi j r c Hj Hsig) as (H1 & H2 & H3 & H4).
           split; [exact H1|]. split; [exact H2|]. split; [exact H3|].
           intros k r' Hk Hsig'.
           apply lookup_app_Some in Hk as [Hk|[Hlen' Hk]]; [eauto|].
           destruct (k - length (issued w))%nat; [|discriminate].
           injection Hk as <-. discriminate.
        -- destruct (j - length (issued w))%nat; [|discriminate].
           injection Hj as <-. discriminate.
      * intros r [Hin|Hin]%elem_of_app Hsig; [eauto|].
        apply list_elem_of_singleton in Hin. subst r. reflexivity.
    + unfold step. rewrite Hr, Hm. exact Hok.
  - unfold step. rewrite Hr.
    destruct (issued w !! i) as [r|]; [|exact Hok].
    destruct (bool_decide (i ∈ settled w)); [exact Hok|].
    destruct (cancelled w r); [exact Hok|].
    pose proof (resume_filters cfg (req_snap r) (req_initialPage r) res (view w)) as Hfl.
    destruct (fetchTeams_resume _ _ _ _ _) as [v ts]. cbn in Hfl.
    unfold controllers_ok. cbn. rewrite Hfl. exact Hok.
Qed.

Lemma controllers_ok_run (evs : list Event) :
  hackathon_id cfg ≠ "" -> controllers_ok (run cfg evs).
Proof.
  intros Hid. unfold run.
  assert (H : redirect (mount cfg) = None ∧ controllers_ok (mount cfg)).
  { split; [apply (never_redirected cfg []); exact Hid|apply controllers_ok_mount; exact Hid]. }
  revert H. generalize (mount cfg).
  induction evs as [|e evs IH]; intros w [Hr Hc]; [exact Hc|].
  cbn [fold_left]. apply IH. split.
  - apply step_stays; assumption.
  - apply controllers_ok_step; assumption.
Qed.

Lemma pages_positive_step (w : World) (e : Event) :
  redirect w = None -> 1 <= page (view w) ->
  pages_positive w -> pages_positive (step cfg w e).
Proof.
  intros Hr Hp Hall. unfold pages_positive, step. rewrite Hr.
  destruct e as [f| |i res].
  - destruct (bool_decide (f = filters (view w))); [exact Hall|].
    unfold effect, run_cleanup. cbn.
    destruct (bool_decide (hackathon_id cfg = "")), (cleanup w); cbn;
      try exact Hall;
      (apply Forall_app; split; [exact Hall|]);
      (constructor; [cbn; lia|constructor]).
  - destruct (hasMore (view w)); [|exact Hall]. cbn.
    apply Forall_app. split; [exact Hall|].
    constructor; [exact Hp|constructor].
  - destruct (issued w !! i) as [r|]; [|exact Hall].
    destruct (bool_decide (i ∈ settled w)); [exact Hall|].
    destruct (cancelled w r); [exact Hall|].
    destruct (fetchTeams_resume _ _ _ _ _). exact Hall.
Qed.

Lemma pages_positive_run (evs : list Event) : pages_positive (run cfg evs).
Proof.
  destruct (decide (hackathon_id cfg = "")) as [Hid|Hid].
  { rewrite run_without_id by exact Hid. unfold pages_positive, mount, effect.
    rewrite (bool_decide_eq_true_2 _ Hid). constructor. }
  unfold run.
  assert (H : redirect (mount cfg) = None ∧ inv (mount cfg) ∧ pages_positive (mount cfg)).
  { split; [apply (never_redirected cfg []); exact Hid|].
    split; [apply inv_blank_effect|].
    unfold pages_positive, mount, effect.
    rewrite bool_decide_eq_false_2 by assumption. cbn.
    constructor; [cbn; lia|constructor]. }
  revert H. generalize (mount cfg).
  induction evs as [|e evs IH]; intros w (Hr & Hinv & Hp); [exact Hp|].
  cbn [fold_left]. apply IH. split; [apply step_stays; assumption|].
  split; [apply inv_step; exact Hinv|].
  apply pages_positive_step; [exact Hr| |exact Hp].
  destruct (Hinv Hr) as (H1 & _). exact H1.
Qed.

End TeamsListMore.

Import Dashboard Invariants Controllers.

(** X1. The search text goes into the URL as it is: a search text that ends
    in [&track_id=t], with no track selected, gives the very URL of the
    shorter search text with track [t] selected. *)
Theorem search_text_is_not_escaped (cfg : Config) (v : View)
    (initialPage : option Z) (s t e o : string) (score : Z) :
  t ≠ "" -> t ≠ "none" ->
  fetchTeams_url cfg
    (setFilters (mkFilters (s +:+ "&track_id=" +:+ t) "" e score o) v) initialPage
  = fetchTeams_url cfg (setFilters (mkFilters s t e score o) v) initialPage.
Proof.
  intros Ht1 Ht2. unfold fetchTeams_url, requestedPage. cbn.
  rewrite (bool_decide_eq_true_2 (t ≠ "")), (bool_decide_eq_true_2 (t ≠ "none"))
    by assumption.
  cbn. rewrite !append_assoc. reflexivity.
Qed.

(** X2. Whatever has happened to the teams list, when it holds a team the
    page counter is at least 2: the counter is 1 only while the list is
    empty. *)
Theorem shown_teams_put_counter_past_one (cfg : Config) (evs : list Event) :
  teams (view (run cfg evs)) ≠ [] ->
  2 <= page (view (run cfg evs)).
Proof.
  intros Hne. destruct (decide (hackathon_id cfg = "")) as [Hid|Hid].
  { exfalso. apply Hne. rewrite run_without_id by exact Hid.
    unfold mount, effect. rewrite (bool_decide_eq_true_2 _ Hid). reflexivity. }
  pose proof (never_redirected cfg evs Hid) as Hr.
  destruct (inv_run cfg evs Hr) as (Hp & He & _).
  destruct (decide (page (view (run cfg evs)) = 1)) as [H1|H1]; [|lia].
  contradiction (Hne (He H1)).
Qed.

(** X3. No request the page ever makes asks for a page below 1, although
    the counter starts at 0. *)
Theorem never_requests_page_below_one (cfg : Config) (evs : list Event)
    (i : nat) (r : Request) :
  issued (run cfg evs) !! i = Some r ->
  1 <= requestedPage (req_snap r) (req_initialPage r)
  ∧ req_url r = fetchTeams_url cfg (req_snap r) (req_initialPage r).
Proof.
  intros Hi. split.
  - pose proof (pages_positive_run cfg evs) as Hall.
    unfold pages_positive in Hall. rewrite Forall_lookup in Hall.
    exact (Hall i r Hi).
  - apply list_elem_of_lookup_2 in Hi.
    pose proof (issued_by_fetchTeams cfg evs r Hi) as Hb.
    unfold built_by_fetchTeams in Hb. rewrite Hb at 1. reflexivity.
Qed.

(** X4. Mounted without a hackathon id, the filter effect asks for
    nothing: it sends the browser to [/?redirect_url=] followed by the
    current path, makes no teams request and writes no state cell; the
    controller it created is left for the clean-up. *)
Theorem no_hackathon_id_no_fetch (cfg : Config) :
  hackathon_id cfg = "" ->
  redirect (mount cfg) = Some ("/?redirect_url=" +:+ pathname cfg)
  ∧ issued (mount cfg) = []
  ∧ view (mount cfg) = initialView
  ∧ cleanup (mount cfg) = Some 0%nat.
Proof.
  intros Hid. unfold mount, effect. rewrite (bool_decide_eq_true_2 _ Hid).
  repeat split.
Qed.

(** X5. At any moment at most one fetch started by the filter effect is
    still awaited, and it asks for page 1 under the filters that are
    selected now: every earlier one has been aborted by the clean-up. *)
Theorem awaited_effect_fetch_is_current (cfg : Config) (evs : list Event)
    (i c : nat) (r : Request) :
  hackathon_id cfg ≠ "" ->
  awaiting (run cfg evs) i = Some r ->
  req_signal r = Some c ->
  filters (req_snap r) = filters (view (run cfg evs))
  ∧ requestedPage (req_snap r) (req_initialPage r) = 1
  ∧ (∀ j r' c', awaiting (run cfg evs) j = Some r' ->
       req_signal r' = Some c' -> j = i).
Proof.
  intros Hid Haw Hs.
  destruct (controllers_ok_run cfg evs Hid) as (_ & _ & Ha & Hi & _).
  assert (Hlive : ∀ j r' c', awaiting (run cfg evs) j = Some r' ->
            req_signal r' = Some c' ->
            issued (run cfg evs) !! j = Some r' ∧ S c' = controllers (run cfg evs)).
  { intros j r' c' Hj Hs'. apply awaiting_inv in Hj as (_ & Hj & _ & Hc).
    split; [exact Hj|].
    unfold cancelled in Hc. rewrite Hs' in Hc.
    apply bool_decide_eq_false in Hc. rewrite Ha in Hc.
    destruct (Hi j r' c' Hj Hs') as (Hlt & _). lia. }
  destruct (Hlive i r c Haw Hs) as (Hl & Hlast).
  destruct (Hi i r c Hl Hs) as (_ & Hip & Hf & Huniq).
  split; [exact (Hf Hlast)|]. split; [rewrite Hip; reflexivity|].
  intros j r' c' Hj Hs'. destruct (Hlive j r' c' Hj Hs') as (Hl' & Hlast').
  assert (c' = c) by lia. subst c'. exact (Huniq j r' Hl' Hs').
Qed.

(** X6. A fetch started by scrolling is not cancelled by a change of the
    filters: it is still awaited afterwards, and when its response arrives
    with status 200 the list, emptied by the change, becomes the list that
    fetch held followed by the returned teams, under the new filters. *)
Theorem scroll_fetch_survives_filter_change (cfg : Config) (evs : list Event)
    (i : nat) (r : Request) (f : Filters)
    (res : Response (list HackathonTeam)) :
  hackathon_id cfg ≠ "" ->
  awaiting (run cfg evs) i = Some r ->
  req_signal r = None ->
  f ≠ filters (view (run cfg evs)) ->
  statusCode res = 200 ->
  let w1 := step cfg (run cfg evs) (FilterChange f) in
  let w2 := step cfg w1 (Resolve i res) in
  awaiting w1 i = Some r
  ∧ teams (view w1) = []
  ∧ filters (view w2) = f
  ∧ teams (view w2) = teams (req_snap r) ++ default [] (body res).
Proof.
  intros Hid Haw Hs Hf Hok w1 w2.
  pose proof (awaiting_inv _ _ _ Haw) as (Hr & Hi & Hset & _).
  destruct (controllers_ok_run cfg evs Hid) as (_ & _ & _ & _ & Hnone).
  pose proof (Hnone r (list_elem_of_lookup_2 _ _ _ Hi) Hs) as Hip.
  destruct (step_filter_change cfg _ f Hid Hr Hf)
    as (Hv & Hiss & Hst & _ & _ & _ & _ & Hrd).
  fold w1 in Hv, Hiss, Hst, Hrd.
  assert (Haw1 : awaiting w1 i = Some r).
  { unfold awaiting. rewrite Hrd, Hiss.
    rewrite lookup_app_l by (apply lookup_lt_Some in Hi; exact Hi).
    rewrite Hi, Hst, bool_decide_eq_false_2 by exact Hset.
    unfold cancelled. rewrite Hs. reflexivity. }
  split; [exact Haw1|]. split; [rewrite Hv; reflexivity|].
  subst w2. rewrite (step_resolve cfg _ _ _ _ Haw1), (resume_success cfg) by assumption.
  rewrite Hip, Hv. cbn. split; reflexivity.
Qed.

(** X7. A response never makes the page ask again: delivering one, with
    whatever status, issues no request. Any event adds at most one request
    to those made so far and takes none away. *)
Theorem responses_issue_no_request (cfg : Config) (w : World) :
  (∀ i res, issued (step cfg w (Resolve i res)) = issued w)
  ∧ (∀ e, ∃ l, issued (step cfg w e) = issued w ++ l ∧ (length l <= 1)%nat).
Proof.
  assert (Hres : ∀ i res, issued (step cfg w (Resolve i res)) = issued w).
  { intros i res. unfold step. destruct (redirect w); [reflexivity|].
    destruct (issued w !! i) as [r|]; [|reflexivity].
    destruct (bool_decide (i ∈ settled w)); [reflexivity|].
    destruct (cancelled w r); [reflexivity|].
    destruct (fetchTeams_resume _ _ _ _ _). reflexivity. }
  split; [exact Hres|].
  intros e. destruct e as [f| |i res].
  - unfold step. destruct (redirect w).
    { exists []. rewrite app_nil_r. split; [reflexivity|cbn; lia]. }
    destruct (bool_decide (f = filters (view w))).
    { exists []. rewrite app_nil_r. split; [reflexivity|cbn; lia]. }
    unfold effect, run_cleanup. cbn.
    destruct (bool_decide (hackathon_id cfg = "")), (cleanup w); cbn;
      eexists; (split; [try reflexivity; symmetry; apply app_nil_r|cbn; lia]).
  - unfold step. destruct (redirect w), (hasMore (view w)); cbn;
      eexists; (split; [try reflexivity; symmetry; apply app_nil_r|cbn; lia]).
  - exists []. rewrite Hres, app_nil_r. split; [reflexivity|cbn; lia].
Qed.

(** ** Properties of the head of the admin live page *)

Import LiveHead.

(** X8. The mount effect loads the rounds exactly for an admin or an
    organisation member, on a hackathon that has not ended and whose team
    formation is over. Anyone else is sent away whatever the hackathon's
    state; then an ended hackathon wins over an unfinished team formation. *)
Theorem rounds_load_only_for_staff_after_team_formation (role : string)
    (isEnded : bool) (now teamFormationEndTime : Z) :
  (roleEffect role isEnded now teamFormationEndTime = LoadRounds
     ↔ (role = "admin" ∨ role = "org") ∧ isEnded = false
       ∧ teamFormationEndTime <= now)
  ∧ (role ≠ "admin" ∧ role ≠ "org"
     ↔ roleEffect role isEnded now teamFormationEndTime = Replace "/?action=sync")
  ∧ ((role = "admin" ∨ role = "org") ∧ isEnded = true
     ↔ roleEffect role isEnded now teamFormationEndTime = Replace "/admin/ended")
  ∧ ((role = "admin" ∨ role = "org") ∧ isEnded = false
       ∧ now < teamFormationEndTime
     ↔ roleEffect role isEnded now teamFormationEndTime = Replace "/admin/teams").
Proof.
  unfold roleEffect.
  destruct (bool_decide_reflect (role ≠ "admin")) as [Ha|Ha];
    destruct (bool_decide_reflect (role ≠ "org")) as [Ho|Ho];
    destruct isEnded; destruct (Z.ltb_spec now teamFormationEndTime);
    cbn; repeat split; intros; try discriminate; try tauto; try lia;
    try (destruct (decide (role = "admin")); tauto);
    try (destruct (decide (role = "org")); tauto).
Qed.

(** X9. While a round is live the judging line reads "Judging is Live"
    exactly strictly between the start and the end of judging, and "Next
    Judging Round Starts" exactly strictly before the start. At the very
    instant judging starts, and from the instant it ends on, there is no
    judging line; a round whose judging ends no later than it starts never
    reads "Judging is Live". *)
Theorem judging_line_boundaries (role : string) (round : HackathonRound)
    (now : Z) :
  ∃ note,
    banner role (Some round) now
      = RoundLive (round_index round + 1) (endTime round) note
    ∧ (note = JudgingLive (judgingEndTime round)
         ↔ judgingStartTime round < now < judgingEndTime round)
    ∧ (note = NextJudging (judgingStartTime round)
         ↔ now < judgingStartTime round)
    ∧ (note = NoNote
         ↔ judgingStartTime round <= now
           ∧ (now = judgingStartTime round ∨ judgingEndTime round <= now))
    ∧ (judgingEndTime round <= judgingStartTime round ->
         note ≠ JudgingLive (judgingEndTime round)).
Proof.
  unfold banner.
  destruct (Z.ltb_spec (judgingStartTime round) now) as [H1|H1];
    destruct (Z.ltb_spec now (judgingEndTime round)) as [H2|H2];
    destruct (Z.ltb_spec now (judgingStartTime round)) as [H3|H3];
    cbn; eexists; (split; [reflexivity|]);
    repeat split; intros; try discriminate; try lia; try tauto; try reflexivity.
Qed.

(** X10. When the fetch of the current round fails, or succeeds without a
    round, on a page that holds none, the heading reads "All Rounds have
    ended", and for an admin, and only for an admin, it offers the End
    Hackathon dialog. *)
Theorem missing_round_reads_as_all_rounds_ended (cfg : Config)
    (role : string) (res : Response HackathonRound) (now : Z) :
  statusCode res ≠ 200 ∨ body res = None ->
  banner role (getCurrentRound_resume cfg res None).1 now
    = AllRoundsEnded (bool_decide (role = "admin")).
Proof.
  intros H. unfold getCurrentRound_resume.
  destruct (Z.eqb_spec (statusCode res) 200) as [Hok|Hne]; cbn.
  - destruct H as [H|H]; [contradiction|]. rewrite H. reflexivity.
  - reflexivity.
Qed.

(** X11. A table row shows the red badge labelled "Eliminated" exactly for
    an eliminated team and the green badge labelled "Not Eliminated" for
    every other team. *)
Theorem badge_follows_elimination (team : HackathonTeam) :
  (isEliminated team = true
     ↔ Status (rowStatus team)
         = ("bg-red-500 text-white text-xs font-medium px-3 py-1 rounded-full",
            "Eliminated"))
  ∧ (isEliminated team = false
     ↔ Status (rowStatus team)
         = ("bg-green-500 text-white text-xs font-medium px-3 py-1 rounded-full",
            "Not Eliminated")).
Proof.
  unfold rowStatus, Status. destruct (isEliminated team); cbn;
    repeat split; intros; try reflexivity; discriminate.
Qed.

(** ** Properties of the entry list of the repository form *)

Import Repositories RepositoriesView.

Lemma filter_from_all {A : Type} (keep : A -> nat -> bool) (l : list A) :
  ∀ k, (∀ x j, (k <= j)%nat -> keep x j = true) -> filter_from keep k l = l.
Proof.
  induction l as [|x l IH]; intros k Hk; [reflexivity|].
  cbn. rewrite (Hk x k) by lia. f_equal. apply IH.
  intros y j Hj. apply Hk. lia.
Qed.

Lemma filter_from_delete {A : Type} (keep : A -> nat -> bool) (l : list A) :
  ∀ k i, (∀ x j, (k <= j)%nat -> keep x j = negb (Nat.eqb j (k + i))) ->
  filter_from keep k l = delete i l.
Proof.
  induction l as [|x l IH]; intros k i Hk; [reflexivity|].
  cbn [filter_from]. rewrite (Hk x k) by lia. destruct i as [|i].
  - rewrite Nat.add_0_r, Nat.eqb_refl. cbn. apply filter_from_all.
    intros y j Hj. rewrite Hk by lia.
    apply negb_true_iff, Nat.eqb_neq. lia.
  - replace (Nat.eqb k (k + S i)) with false by (symmetry; apply Nat.eqb_neq; lia).
    cbn. f_equal. apply IH. intros y j Hj. rewrite Hk by lia.
    replace (k + S i)%nat with (S k + i)%nat by lia. reflexivity.
Qed.

Lemma map_from_id {A : Type} (f : A -> nat -> A) (l : list A) :
  ∀ k, (∀ x j, (k <= j)%nat -> f x j = x) -> map_from f k l = l.
Proof.
  induction l as [|x l IH]; intros k Hk; [reflexivity|].
  cbn. rewrite (Hk x k) by lia. f_equal. apply IH.
  intros y j Hj. apply Hk. lia.
Qed.

Lemma map_from_insert {A : Type} (f : A -> nat -> A) (v : A) (l : list A) :
  ∀ k i, (∀ x j, (k <= j)%nat -> f x j = if Nat.eqb j (k + i) then v else x) ->
  map_from f k l = <[i:=v]> l.
Proof.
  induction l as [|x l IH]; intros k i Hk; [reflexivity|].
  cbn [map_from]. rewrite (Hk x k) by lia. destruct i as [|i].
  - rewrite Nat.add_0_r, Nat.eqb_refl. cbn. f_equal. apply map_from_id.
    intros y j Hj. rewrite Hk by lia.
    replace (Nat.eqb j (k + 0)) with false by (symmetry; apply Nat.eqb_neq; lia).
    reflexivity.
  - replace (Nat.eqb k (k + S i)) with false by (symmetry; apply Nat.eqb_neq; lia).
    cbn. f_equal. apply IH. intros y j Hj. rewrite Hk by lia.
    replace (k + S i)%nat with (S k + i)%nat by lia. reflexivity.
Qed.

Lemma setNewRepos_same (s : Form) : setNewRepos (newRepos s) s = s.
Proof. destruct s. reflexivity. Qed.

Lemma handleRemoveInput_delete (index : nat) (s : Form) :
  newRepos (handleRemoveInput index s) = delete index (newRepos s).
Proof.
  unfold handleRemoveInput. cbn. apply filter_from_delete.
  intros x j _. reflexivity.
Qed.

Lemma handleInputChange_insert (index : nat) (value : string) (s : Form) :
  newRepos (handleInputChange index value s) = <[index:=value]> (newRepos s).
Proof.
  unfold handleInputChange. cbn. apply map_from_insert.
  intros x j _. reflexivity.
Qed.

(** X12. Removing an entry takes out the entry at that position and no
    other: the entries before it keep their place, those after it move up
    by one and the list is one shorter. A position past the end changes
    nothing. The linked repositories and the error are not touched. *)
Theorem remove_input_deletes_one_position (index : nat) (s : Form) :
  newRepos (handleRemoveInput index s)
    = take index (newRepos s) ++ drop (S index) (newRepos s)
  ∧ ((index < length (newRepos s))%nat ->
       S (length (newRepos (handleRemoveInput index s))) = length (newRepos s))
  ∧ (∀ j, (j < index)%nat ->
       newRepos (handleRemoveInput index s) !! j = newRepos s !! j)
  ∧ (∀ j, (index <= j)%nat ->
       newRepos (handleRemoveInput index s) !! j = newRepos s !! S j)
  ∧ ((length (newRepos s) <= index)%nat -> handleRemoveInput index s = s)
  ∧ githubRepos (handleRemoveInput index s) = githubRepos s
  ∧ error (handleRemoveInput index s) = error s.
Proof.
  rewrite handleRemoveInput_delete. split; [apply delete_take_drop|].
  split.
  { intros Hi. rewrite length_delete by (apply lookup_lt_is_Some; exact Hi). lia. }
  split; [intros j Hj; apply list_lookup_delete_lt; exact Hj|].
  split; [intros j Hj; apply list_lookup_delete_ge; exact Hj|].
  split; [|split; reflexivity].
  intros Hi. unfold handleRemoveInput.
  change (filter_from _ 0%nat (newRepos s)) with (newRepos (handleRemoveInput index s)).
  rewrite handleRemoveInput_delete, delete_take_drop.
  rewrite take_ge, drop_ge, app_nil_r by lia. apply setNewRepos_same.
Qed.

(** X13. Typing into an entry replaces the text at that position and
    nothing else: the list keeps its length and every other position its
    text. A position past the end changes nothing. *)
Theorem input_change_writes_one_position (index : nat) (value : string)
    (s : Form) :
  length (newRepos (handleInputChange index value s)) = length (newRepos s)
  ∧ ((index < length (newRepos s))%nat ->
       newRepos (handleInputChange index value s) !! index = Some value)
  ∧ (∀ j, j ≠ index ->
       newRepos (handleInputChange index value s) !! j = newRepos s !! j)
  ∧ ((length (newRepos s) <= index)%nat -> handleInputChange index value s = s)
  ∧ githubRepos (handleInputChange index value s) = githubRepos s
  ∧ error (handleInputChange index value s) = error s.
Proof.
  rewrite handleInputChange_insert. split; [apply length_insert|].
  split; [intros Hi; apply list_lookup_insert_eq; exact Hi|].
  split; [intros j Hj; apply list_lookup_insert_ne; congruence|].
  split; [|split; reflexivity].
  intros Hi. unfold handleInputChange.
  change (map_from _ 0%nat (newRepos s)) with (newRepos (handleInputChange index value s)).
  rewrite handleInputChange_insert, list_insert_ge by exact Hi.
  apply setNewRepos_same.
Qed.

(** X14. With a validator that rejects the empty string, "New Link" always
    leaves the submit button disabled: it appends one empty entry, and the
    button stays disabled until that entry holds a valid URL. *)
Theorem add_input_disables_submit (isURL : string -> bool) (s : Form) :
  isURL "" = false ->
  newRepos (handleAddInput s) = newRepos s ++ [""]
  ∧ submitShown (handleAddInput s) = true
  ∧ submitEnabled isURL (handleAddInput s) = false
  ∧ (∀ v, submitEnabled isURL
            (handleInputChange (length (newRepos s)) v (handleAddInput s))
          = isURL v && isValid isURL s).
Proof.
  intros He. split; [reflexivity|]. split.
  { unfold submitShown, handleAddInput. cbn [setNewRepos newRepos].
    rewrite length_app. apply Nat.ltb_lt. cbn. lia. }
  split.
  { unfold submitEnabled, isValid, handleAddInput. cbn.
    rewrite forallb_app. cbn. rewrite He, andb_false_r, andb_false_r. reflexivity. }
  intros v. unfold submitEnabled, submitShown, isValid.
  rewrite handleInputChange_insert. cbn [handleAddInput setNewRepos newRepos].
  rewrite length_insert, length_app. cbn [length].
  replace (Nat.ltb 0 (length (newRepos s) + 1)) with true
    by (symmetry; apply Nat.ltb_lt; lia).
  rewrite negb_involutive. cbn [andb].
  rewrite insert_app_r_alt, Nat.sub_diag by lia. cbn.
  rewrite forallb_app. cbn. rewrite andb_true_r. apply andb_comm.
Qed.

(** X15. Removing the entry that "New Link" has just added gives back the
    form as it was. *)
Theorem add_then_remove_last_restores (s : Form) :
  handleRemoveInput (length (newRepos s)) (handleAddInput s) = s.
Proof.
  unfold handleRemoveInput.
  change (filter_from _ 0%nat (newRepos (handleAddInput s)))
    with (newRepos (handleRemoveInput (length (newRepos s)) (handleAddInput s))).
  rewrite handleRemoveInput_delete. cbn [handleAddInput setNewRepos newRepos].
  rewrite delete_middle, app_nil_r. destruct s. reflexivity.
Qed.

(** X16. After an entry inside the list has been edited, the list is valid
    exactly when the new text is valid and so is every other entry, that
    is, the list without the edited position. *)
Theorem validity_after_edit (isURL : string -> bool) (index : nat)
    (value : string) (s : Form) :
  (index < length (newRepos s))%nat ->
  isValid isURL (handleInputChange index value s)
    = isURL value && isValid isURL (handleRemoveInput index s).
Proof.
  intros Hi. unfold isValid.
  rewrite handleInputChange_insert, handleRemoveInput_delete.
  rewrite insert_take_drop by exact Hi. rewrite delete_take_drop.
  rewrite !forallb_app. cbn.
  destruct (isURL value), (forallb isURL (take index (newRepos s))); reflexivity.
Qed.

(** ** Properties of deleting, loading and rendering repositories *)


Lemma filter_swap {A : Type} (f g : A -> bool) (l : list A) :
  List.filter f (List.filter g l) = List.filter g (List.filter f l).
Proof.
  induction l as [|x l IH]; [reflexivity|].
  cbn. destruct (f x) eqn:Hf, (g x) eqn:Hg; cbn; rewrite ?Hf, ?Hg, IH; reflexivity.
Qed.

Lemma filter_twice {A : Type} (f : A -> bool) (l : list A) :
  List.filter f (List.filter f l) = List.filter f l.
Proof.
  induction l as [|x l IH]; [reflexivity|].
  cbn. destruct (f x) eqn:Hf; cbn; rewrite ?Hf, IH; reflexivity.
Qed.

Lemma deleted_list (snap cur : Form) (repo : string) (res : Response unit) :
  statusCode res = 200 ->
  (handleRepoDelete_resume snap repo (Returned res) cur).1
    = setGithubRepos
        (List.filter (fun r => negb (String.eqb (id r) repo)) (githubRepos snap))
        cur.
Proof. intros Hok. unfold handleRepoDelete_resume. rewrite Hok. reflexivity. Qed.


(** X18. Two deletions that succeed one after the other give the same form
    in either order, and deleting the same identifier a second time changes
    nothing more. *)
Theorem sequential_deletions_commute (s : Form) (a b : string)
    (ra rb : Response unit) :
  statusCode ra = 200 ->
  statusCode rb = 200 ->
  (handleRepoDelete (handleRepoDelete s a (Returned ra)).1 b (Returned rb)).1
    = (handleRepoDelete (handleRepoDelete s b (Returned rb)).1 a (Returned ra)).1
  ∧ (handleRepoDelete (handleRepoDelete s a (Returned ra)).1 a (Returned ra)).1
    = (handleRepoDelete s a (Returned ra)).1.
Proof.
  intros Ha Hb. unfold handleRepoDelete.
  rewrite !deleted_list by assumption. cbn.
  unfold setGithubRepos. cbn. split; f_equal.
  - apply filter_swap.
  - apply filter_twice.
Qed.

(** X19. Two deletions started from the same render overlap badly: each
    filters the list of that render, so when both succeed the later
    response stores the list without its own identifier only, and the
    entries the earlier response had removed are back. *)
Theorem overlapping_deletions_restore_first (snap : Form) (a b : string)
    (ra rb : Response unit) :
  statusCode ra = 200 ->
  statusCode rb = 200 ->
  a ≠ b ->
  let s1 := (handleRepoDelete_resume snap a (Returned ra) snap).1 in
  let s2 := (handleRepoDelete_resume snap b (Returned rb) s1).1 in
  (∀ r, r ∈ githubRepos s2 ↔ r ∈ githubRepos snap ∧ id r ≠ b)
  ∧ (∀ r, r ∈ githubRepos snap -> id r = a ->
       (r ∉ githubRepos s1) ∧ r ∈ githubRepos s2).
Proof.
  intros Ha Hb Hab s1 s2. subst s1 s2. rewrite !deleted_list by assumption. cbn.
  assert (Hin : ∀ x r, r ∈ List.filter (fun r => negb (String.eqb (id r) x)) (githubRepos snap)
                 ↔ r ∈ githubRepos snap ∧ id r ≠ x).
  { intros x r. rewrite !list_elem_of_In, filter_In, negb_true_iff, String.eqb_neq.
    reflexivity. }
  split; [apply Hin|].
  intros r Hr Hid. rewrite !Hin. split; [tauto|]. split; [exact Hr|congruence].
Qed.


(** X21. When the first fetch of the linked repositories settles, the
    loader is gone. A 200 response with a list shows that list above the
    one empty entry; a 200 response without a list makes rendering throw;
    any other response shows an error text and nothing else: the server's
    message when it has one, the generic text otherwise; a thrown request
    shows "Failed to fetch repositories". *)
Theorem first_fetch_screen (SERVER_ERROR : string) (isURL : string -> bool)
    (o : FetchOutcome) :
  SERVER_ERROR ≠ "" ->
  loading (form (fetchRepositories_resume SERVER_ERROR o initialCells)) = false
  ∧ renderCells isURL (fetchRepositories_resume SERVER_ERROR o initialCells)
    = match o with
      | FetchReturned res =>
          if Z.eqb (statusCode res) 200
          then match body res with
               | Some l => Some (ShowBody l [""] (Some (isURL "")))
               | None => None
               end
          else Some (ShowError (match message res with
                                | Some m => if String.eqb m "" then SERVER_ERROR else m
                                | None => SERVER_ERROR
                                end))
      | FetchThrew => Some (ShowError "Failed to fetch repositories")
      end.
Proof.
  intros Hse. unfold fetchRepositories_resume, renderCells.
  destruct o as [res|]; [|split; reflexivity].
  destruct (Z.eqb (statusCode res) 200).
  - destruct (body res) as [l|]; cbn; [|split; reflexivity].
    split; [reflexivity|]. unfold render. cbn.
    rewrite andb_true_r, negb_involutive. reflexivity.
  - split; [reflexivity|]. cbn.
    destruct (message res) as [m|]; cbn.
    + destruct (String.eqb_spec m "") as [->|Hm]; cbn.
      * destruct (String.eqb_spec SERVER_ERROR ""); [contradiction|reflexivity].
      * destruct (String.eqb_spec m ""); [contradiction|reflexivity].
    + destruct (String.eqb_spec SERVER_ERROR ""); [contradiction|reflexivity].
Qed.

Lemma perform_keeps (SERVER_ERROR : string) (c : Cells) (a : Action) :
  SERVER_ERROR ≠ "" ->
  (loading (form c) = false -> loading (form (perform SERVER_ERROR c a)) = false)
  ∧ (Js.truthy_str (error (form c)) = true ->
     Js.truthy_str (error (form (perform SERVER_ERROR c a))) = true).
Proof.
  intros Hse. destruct a as [| i | i v | o | snap repo o]; cbn; auto.
  - unfold fetchRepositories_resume. destruct o as [res|]; [|cbn; auto].
    destruct (Z.eqb (statusCode res) 200).
    + destruct (body res); cbn; auto.
    + cbn. split; [auto|]. intros _.
      destruct (message res) as [m|]; cbn.
      * destruct (String.eqb_spec m "") as [->|Hm]; cbn.
        -- destruct (String.eqb_spec SERVER_ERROR ""); [contradiction|reflexivity].
        -- destruct (String.eqb_spec m ""); [contradiction|reflexivity].
      * destruct (String.eqb_spec SERVER_ERROR ""); [contradiction|reflexivity].
  - unfold handleRepoDelete_resume. destruct o as [res|]; [|cbn; auto].
    destruct (Z.eqb (statusCode res) 200); cbn; auto.
Qed.

(** X22. The component never recovers by itself: no handler sets [loading]
    back to true and none clears the error. Once the loader is gone and an
    error is shown, the screen is an error text after every further
    sequence of actions: successful fetches, fetches answered without a
    list and deletions included. *)
Theorem error_screen_is_permanent (SERVER_ERROR : string)
    (isURL : string -> bool) (acts : list Action) (c : Cells) :
  SERVER_ERROR ≠ "" ->
  loading (form c) = false ->
  Js.truthy_str (error (form c)) = true ->
  loading (form (performAll SERVER_ERROR c acts)) = false
  ∧ Js.truthy_str (error (form (performAll SERVER_ERROR c acts))) = true
  ∧ ∃ text, renderCells isURL (performAll SERVER_ERROR c acts)
            = Some (ShowError text).
Proof.
  intros Hse. revert c. induction acts as [|a acts IH]; intros c Hl He.
  - split; [exact Hl|]. split; [exact He|].
    unfold renderCells. cbn. rewrite Hl, He. eauto.
  - unfold performAll. cbn [fold_left].
    destruct (perform_keeps SERVER_ERROR c a Hse) as (H1 & H2).
    apply IH; auto.
Qed.

(** ** Properties of the return from the linking flow and of saving *)

Lemma truthy_str_spec (o : option string) :
  Js.truthy_str o = true ↔ ∃ t, o = Some t ∧ t ≠ "".
Proof.
  destruct o as [t|]; cbn.
  - destruct (String.eqb_spec t "") as [->|Hne]; cbn; split.
    + discriminate.
    + intros (t' & [= <-] & Hne). contradiction.
    + eauto.
    + reflexivity.
  - split; [discriminate|]. intros (t & Ht & _). discriminate.
Qed.

#[local] Ltac mem_solve :=
  repeat match goal with
         | H : _ ∨ _ |- _ => destruct H
         | H : _ ∧ _ |- _ => destruct H
         | H : False |- _ => contradiction
         | H : ShowToast _ = ShowToast _ |- _ => injection H as H
         | H : ToastError _ = ToastError _ |- _ => injection H as H
         | H : DispatchGithubUsername _ = DispatchGithubUsername _ |- _ =>
             injection H as H
         | H : Some _ = Some _ |- _ => injection H as H
         end;
  subst; try discriminate; try congruence; eauto;
  try (split; [|split]); try congruence; auto.

(** X23. On return from the linking flow the error toast is shown exactly
    when the status is ['0'] and a non-empty message came along, and the
    GitHub user name is stored exactly when the status is ['1'] and a
    non-empty user name came along. A message without status ['0'] is
    never shown. *)
Theorem return_notifications (status username message : option string)
    (path : string) (query : gmap string string) :
  (∀ m, ShowToast (ToastError m) ∈ returnEffect status username message path query
        ↔ status = Some "0" ∧ message = Some m ∧ m ≠ "")
  ∧ (∀ u, DispatchGithubUsername u ∈ returnEffect status username message path query
        ↔ status = Some "1" ∧ username = Some u ∧ u ≠ "")
  ∧ (∀ t, ShowToast t ∈ returnEffect status username message path query ->
        ∃ m, t = ToastError m).
Proof.
  unfold returnEffect.
  destruct (Js.truthy_str status) eqn:Hs; cbn [orb].
  - destruct (bool_decide_reflect (status = Some "1")) as [H1|H1].
    + subst status.
      destruct (Js.truthy_str username) eqn:Hu; cbn [andb].
      * apply truthy_str_spec in Hu as (u & -> & Hu).
        rewrite bool_decide_eq_true_2 by congruence.
        repeat split; intros; rewrite ?list_elem_of_In in *; cbn [In app] in *;
          mem_solve.
      * assert (Hno : ∀ t, username = Some t -> t = "").
        { intros t ->. cbn in Hu. apply negb_false_iff, String.eqb_eq in Hu. exact Hu. }
        repeat split; intros; rewrite ?list_elem_of_In in *; cbn [In app] in *;
          mem_solve.
    + destruct (bool_decide_reflect (status = Some "0")) as [H0|H0].
      * subst status. destruct (Js.truthy_str message) eqn:Hm.
        -- apply truthy_str_spec in Hm as (m & -> & Hm).
           repeat split; intros; rewrite ?list_elem_of_In in *; cbn [In app default] in *;
             mem_solve.
        -- assert (Hno : ∀ t, message = Some t -> t = "").
           { intros t ->. cbn in Hm. apply negb_false_iff, String.eqb_eq in Hm. exact Hm. }
           repeat split; intros; rewrite ?list_elem_of_In in *; cbn [In app] in *;
             mem_solve.
      * repeat split; intros; rewrite ?list_elem_of_In in *; cbn [In app] in *;
          mem_solve.
  - assert (Hn0 : status ≠ Some "0") by (intros ->; discriminate).
    assert (Hn1 : status ≠ Some "1") by (intros ->; discriminate).
    destruct (Js.truthy_str message) eqn:Hm;
      repeat split; intros; rewrite ?list_elem_of_In in *; cbn [In app] in *;
      mem_solve.
Qed.

(** X24. The effect rewrites the address exactly when a non-empty status or
    message came along, once, as its last action. The new query lacks
    [status] when a status came along and lacks [message] only when the
    error toast was shown; every other parameter, [username] too, is kept
    as it was. *)
Theorem return_query_rewrite (status username message : option string)
    (path : string) (query : gmap string string) :
  (Js.truthy_str status || Js.truthy_str message = false ->
     returnEffect status username message path query = [])
  ∧ (Js.truthy_str status || Js.truthy_str message = true ->
     ∃ pre q,
       returnEffect status username message path query
         = pre ++ [RouterReplace path q]
       ∧ (∀ p q', RouterReplace p q' ∉ pre)
       ∧ (∀ k, k ≠ "status" -> k ≠ "message" -> q !! k = query !! k)
       ∧ q !! "username" = query !! "username"
       ∧ q !! "status"
           = (if Js.truthy_str status then None else query !! "status")
       ∧ q !! "message"
           = (if bool_decide (status = Some "0") && Js.truthy_str message
              then None else query !! "message")).
Proof.
  unfold returnEffect. split.
  { intros ->. reflexivity. }
  intros ->.
  assert (Hmem : ∀ (x : ReturnAction) p q', (∀ u, x ≠ RouterReplace u q') ->
            RouterReplace p q' ∉ [x]).
  { intros x p q' Hx Hin. apply list_elem_of_singleton in Hin.
    apply (Hx p). congruence. }
  destruct (Js.truthy_str status) eqn:Hs.
  - destruct (bool_decide_reflect (status = Some "1")) as [H1|H1].
    + rewrite (bool_decide_eq_false_2 (status = Some "0")) by (rewrite H1; discriminate).
      cbv beta iota zeta. eexists _, _. split; [reflexivity|]. split.
      { destruct (Js.truthy_str username && bool_decide (username ≠ Some ""));
          intros p q'; [apply Hmem; discriminate|apply not_elem_of_nil]. }
      split; [intros k Hk1 Hk2; apply lookup_delete_ne; congruence|].
      split; [apply lookup_delete_ne; discriminate|].
      split; [apply lookup_delete_eq|].
      cbn. apply lookup_delete_ne. discriminate.
    + destruct (bool_decide_reflect (status = Some "0")) as [H0|H0].
      * destruct (Js.truthy_str message) eqn:Hm; cbv beta iota zeta.
        -- eexists _, _. split; [reflexivity|].
           split; [intros p q'; apply Hmem; discriminate|].
           split; [intros k Hk1 Hk2; rewrite !lookup_delete_ne by congruence; reflexivity|].
           split; [rewrite !lookup_delete_ne by discriminate; reflexivity|].
           split; [apply lookup_delete_eq|].
           cbn. rewrite lookup_delete_ne by discriminate. apply lookup_delete_eq.
        -- eexists _, _. split; [reflexivity|].
           split; [intros p q'; apply not_elem_of_nil|].
           split; [intros k Hk1 Hk2; apply lookup_delete_ne; congruence|].
           split; [apply lookup_delete_ne; discriminate|].
           split; [apply lookup_delete_eq|].
           cbn. apply lookup_delete_ne. discriminate.
      * cbv beta iota zeta. eexists _, _. split; [reflexivity|].
        split; [intros p q'; apply not_elem_of_nil|].
        split; [intros k Hk1 Hk2; apply lookup_delete_ne; congruence|].
        split; [apply lookup_delete_ne; discriminate|].
        split; [apply lookup_delete_eq|].
        cbn. apply lookup_delete_ne. discriminate.
  - assert (Hn0 : status ≠ Some "0") by (intros ->; discriminate).
    rewrite (bool_decide_eq_false_2 _ Hn0). cbv beta iota zeta.
    exists [], query. split; [reflexivity|].
    split; [intros p q'; apply not_elem_of_nil|]. repeat split.
Qed.

Lemma concat_cons (sep x : string) (l : list string) :
  l ≠ [] -> String.concat sep (x :: l) = x +:+ sep +:+ String.concat sep l.
Proof. destruct l; [contradiction|reflexivity]. Qed.

Lemma concat_merge (l1 l2 : list string) (a b : string) :
  String.concat "," (l1 ++ a :: b :: l2)
    = String.concat "," (l1 ++ (a +:+ "," +:+ b) :: l2).
Proof.
  induction l1 as [|x l1 IH].
  - cbn [app]. rewrite concat_cons by discriminate.
    destruct l2 as [|y l2]; [reflexivity|].
    rewrite !(concat_cons "," _ (y :: l2)) by discriminate.
    rewrite !append_assoc. reflexivity.
  - cbn [app]. rewrite !concat_cons by (destruct l1; discriminate).
    rewrite IH. reflexivity.
Qed.

(** X25. The links go into the address joined by commas and nothing more,
    so the address cannot tell an entry that holds a comma from two
    entries: both entry lists send the browser to the same address. *)
Theorem saved_links_merge_at_commas (BACKEND_URL : string) (team : TeamProp)
    (token : option string) (s : Form) (l1 l2 : list string) (a b : string) :
  handleSaveRepositories_url BACKEND_URL team token
    (setNewRepos (l1 ++ a :: b :: l2) s)
  = handleSaveRepositories_url BACKEND_URL team token
      (setNewRepos (l1 ++ (a +:+ "," +:+ b) :: l2) s).
Proof.
  unfold handleSaveRepositories_url. cbn. rewrite concat_merge. reflexivity.
Qed.

(** ** The further properties at concrete inputs *)

Lemma search_text_is_not_escaped_witness :
  "t1" ≠ "" ∧ "t1" ≠ "none"
  ∧ fetchTeams_url Samples.cfg0
      (Dashboard.setFilters (mkFilters "rust&track_id=t1" "" "" 0 "latest") initialView)
      None
    = fetchTeams_url Samples.cfg0
        (Dashboard.setFilters (mkFilters "rust" "t1" "" 0 "latest") initialView)
        None.
Proof.
  assert (H1 : "t1" ≠ "") by discriminate.
  assert (H2 : "t1" ≠ "none") by discriminate.
  split; [exact H1|]. split; [exact H2|].
  exact (search_text_is_not_escaped Samples.cfg0 initialView None
           "rust" "t1" "" "latest" 0 H1 H2).
Defined.

Lemma shown_teams_put_counter_past_one_witness :
  teams (view (run Samples.cfg0 Samples.first_page_loaded)) ≠ []
  ∧ 2 <= page (view (run Samples.cfg0 Samples.first_page_loaded)).
Proof.
  assert (H : teams (view (run Samples.cfg0 Samples.first_page_loaded)) ≠ [])
    by (vm_compute; discriminate).
  split; [exact H|].
  exact (shown_teams_put_counter_past_one Samples.cfg0
           Samples.first_page_loaded H).
Defined.

Lemma never_requests_page_below_one_witness :
  issued (run Samples.cfg0 Samples.first_page_loaded) !! 1%nat
    = Some Samples.second_page_request
  ∧ 1 <= requestedPage (req_snap Samples.second_page_request)
           (req_initialPage Samples.second_page_request).
Proof.
  assert (H : issued (run Samples.cfg0 Samples.first_page_loaded) !! 1%nat
              = Some Samples.second_page_request) by (vm_compute; reflexivity).
  split; [exact H|].
  exact (proj1 (never_requests_page_below_one Samples.cfg0
                  Samples.first_page_loaded 1 Samples.second_page_request H)).
Defined.

Lemma no_hackathon_id_no_fetch_witness :
  hackathon_id MoreSamples.cfg_no_id = ""
  ∧ issued (mount MoreSamples.cfg_no_id) = []
  ∧ redirect (mount MoreSamples.cfg_no_id) = Some "/?redirect_url=/admin/live".
Proof.
  split; [reflexivity|].
  pose proof (no_hackathon_id_no_fetch MoreSamples.cfg_no_id eq_refl)
    as (H1 & H2 & _).
  split; [exact H2|exact H1].
Defined.

Lemma awaited_effect_fetch_is_current_witness :
  hackathon_id Samples.cfg0 ≠ ""
  ∧ awaiting (run Samples.cfg0 [Scroll; FilterChange Samples.filtersB]) 2
      = Some MoreSamples.refiltered_request
  ∧ filters (req_snap MoreSamples.refiltered_request)
      = filters (view (run Samples.cfg0 [Scroll; FilterChange Samples.filtersB])).
Proof.
  assert (H0 : hackathon_id Samples.cfg0 ≠ "") by (vm_compute; discriminate).
  assert (H1 : awaiting (run Samples.cfg0 [Scroll; FilterChange Samples.filtersB]) 2
               = Some MoreSamples.refiltered_request) by (vm_compute; reflexivity).
  split; [exact H0|]. split; [exact H1|].
  exact (proj1 (awaited_effect_fetch_is_current Samples.cfg0
                  [Scroll; FilterChange Samples.filtersB] 2 1
                  MoreSamples.refiltered_request H0 H1 eq_refl)).
Defined.

Lemma scroll_fetch_survives_filter_change_witness :
  hackathon_id Samples.cfg0 ≠ ""
  ∧ awaiting (run Samples.cfg0 Samples.first_page_loaded) 1
      = Some Samples.second_page_request
  ∧ Samples.filtersB ≠ filters (view (run Samples.cfg0 Samples.first_page_loaded))
  ∧ awaiting (step Samples.cfg0 (run Samples.cfg0 Samples.first_page_loaded)
                (FilterChange Samples.filtersB)) 1
      = Some Samples.second_page_request.
Proof.
  assert (H0 : hackathon_id Samples.cfg0 ≠ "") by (vm_compute; discriminate).
  assert (H1 : awaiting (run Samples.cfg0 Samples.first_page_loaded) 1
               = Some Samples.second_page_request) by (vm_compute; reflexivity).
  assert (H2 : Samples.filtersB
               ≠ filters (view (run Samples.cfg0 Samples.first_page_loaded)))
    by (vm_compute; discriminate).
  split; [exact H0|]. split; [exact H1|]. split; [exact H2|].
  exact (proj1 (scroll_fetch_survives_filter_change Samples.cfg0
                  Samples.first_page_loaded 1 Samples.second_page_request
                  Samples.filtersB (Samples.ok [Samples.team "a2"])
                  H0 H1 eq_refl H2 eq_refl)).
Defined.

Lemma missing_round_reads_as_all_rounds_ended_witness :
  statusCode (mkResponse 500 (@None HackathonRound) None) ≠ 200
  ∧ banner "admin"
      (getCurrentRound_resume Samples.cfg0 (mkResponse 500 None None) None).1 150
    = AllRoundsEnded true.
Proof.
  assert (H : statusCode (mkResponse 500 (@None HackathonRound) None) ≠ 200)
    by (vm_compute; discriminate).
  split; [exact H|].
  exact (missing_round_reads_as_all_rounds_ended Samples.cfg0 "admin"
           (mkResponse 500 None None) 150 (or_introl H)).
Defined.

Lemma add_input_disables_submit_witness :
  MoreSamples.schemeValidator "" = false
  ∧ submitEnabled MoreSamples.schemeValidator (handleAddInput Samples.linked) = false.
Proof.
  split; [reflexivity|].
  apply (add_input_disables_submit MoreSamples.schemeValidator Samples.linked eq_refl).
Defined.

Lemma validity_after_edit_witness :
  (0 < length (newRepos Samples.linked))%nat
  ∧ isValid MoreSamples.schemeValidator
      (handleInputChange 0 "https://github.com/org/repo" Samples.linked)
    = true.
Proof.
  assert (H : (0 < length (newRepos Samples.linked))%nat) by (cbn; lia).
  split; [exact H|].
  exact (validity_after_edit MoreSamples.schemeValidator 0
           "https://github.com/org/repo" Samples.linked H).
Defined.


Lemma sequential_deletions_commute_witness :
  statusCode (mkResponse 200 (Some tt) None) = 200
  ∧ (handleRepoDelete
       (handleRepoDelete Samples.linked "r1"
          (Returned (mkResponse 200 (Some tt) None))).1
       "r2" (Returned (mkResponse 200 (Some tt) None))).1
    = (handleRepoDelete
         (handleRepoDelete Samples.linked "r2"
            (Returned (mkResponse 200 (Some tt) None))).1
         "r1" (Returned (mkResponse 200 (Some tt) None))).1.
Proof.
  split; [reflexivity|].
  exact (proj1 (sequential_deletions_commute Samples.linked "r1" "r2"
                  (mkResponse 200 (Some tt) None) (mkResponse 200 (Some tt) None)
                  eq_refl eq_refl)).
Defined.

Lemma overlapping_deletions_restore_first_witness :
  statusCode (mkResponse 200 (Some tt) None) = 200
  ∧ "r1" ≠ "r2"
  ∧ Samples.repo "r1" "alpha"
      ∈ githubRepos
          (handleRepoDelete_resume Samples.linked "r2"
             (Returned (mkResponse 200 (Some tt) None))
             (handleRepoDelete_resume Samples.linked "r1"
                (Returned (mkResponse 200 (Some tt) None)) Samples.linked).1).1.
Proof.
  assert (H : "r1" ≠ "r2") by discriminate.
  split; [reflexivity|]. split; [exact H|].
  apply (proj2 (overlapping_deletions_restore_first Samples.linked "r1" "r2"
                  (mkResponse 200 (Some tt) None) (mkResponse 200 (Some tt) None)
                  eq_refl eq_refl H)).
  - cbn. left.
  - reflexivity.
Defined.


Lemma first_fetch_screen_witness :
  "Internal Server Error" ≠ ""
  ∧ renderCells MoreSamples.schemeValidator
      (fetchRepositories_resume "Internal Server Error"
         (FetchReturned (mkResponse 200 None None)) initialCells)
    = None
  ∧ renderCells MoreSamples.schemeValidator
      (fetchRepositories_resume "Internal Server Error"
         (FetchReturned (mkResponse 404 None (Some "No such team"))) initialCells)
    = Some (ShowError "No such team").
Proof.
  assert (H0 : "Internal Server Error" ≠ "") by discriminate.
  split; [exact H0|]. split.
  - exact (proj2 (first_fetch_screen "Internal Server Error"
                    MoreSamples.schemeValidator
                    (FetchReturned (mkResponse 200 None None)) H0)).
  - exact (proj2 (first_fetch_screen "Internal Server Error"
                    MoreSamples.schemeValidator
                    (FetchReturned (mkResponse 404 None (Some "No such team"))) H0)).
Defined.

Lemma error_screen_is_permanent_witness :
  "Internal Server Error" ≠ ""
  ∧ loading MoreSamples.broken = false
  ∧ Js.truthy_str (error MoreSamples.broken) = true
  ∧ ∃ text,
      renderCells MoreSamples.schemeValidator
        (performAll "Internal Server Error"
           {| form := MoreSamples.broken; reposMissing := false |}
           [FetchSettled (FetchReturned (mkResponse 200 None None)); AddInput])
      = Some (ShowError text).
Proof.
  assert (H0 : "Internal Server Error" ≠ "") by discriminate.
  split; [exact H0|]. split; [reflexivity|]. split; [reflexivity|].
  apply (error_screen_is_permanent "Internal Server Error"
           MoreSamples.schemeValidator
           [FetchSettled (FetchReturned (mkResponse 200 None None)); AddInput]
           {| form := MoreSamples.broken; reposMissing := false |}
           H0 eq_refl eq_refl).
Defined.

(** ** Reading the teams query back from the address *)

Import Dashboard UrlQuery.


















(** C1, as the code has it, on the trace of C6. The scroll fetch for page 2
    was issued while the list held [a1]; when its response arrives the
    held list is [b1], and what is stored is not the held list followed by
    the returned team but the list of the issuing render followed by it. *)
Theorem later_page_response_overwrites_held_list :
  let before := run Samples.cfg0 Samples.superseding_trace in
  let after :=
    step Samples.cfg0 before (Resolve 1 (Samples.ok [Samples.team "a2"])) in
  (∃ r, awaiting before 1 = Some r
        ∧ requestedPage (req_snap r) (req_initialPage r) = 2)
  ∧ teams (view before) = [Samples.team "b1"]
  ∧ teams (view after) = [Samples.team "a1"; Samples.team "a2"]
  ∧ teams (view after) ≠ teams (view before) ++ [Samples.team "a2"].
Proof.
  cbv zeta. split; [eexists; split; [vm_compute; reflexivity|reflexivity]|].
  split; [vm_compute; reflexivity|]. split; [vm_compute; reflexivity|].
  vm_compute. discriminate.
Qed.

(** C10, as stated, fails off the nominal schedule. When the first page
    fails after a filter change the counter stays at 1, so the scroll
    fetches ask for pages 1 and 2; and when a scroll fetch is made before
    the first page has arrived, both answers add one to the counter, so
    the scroll fetches ask for pages 1 and 3. Each request is listed with
    its abort signal (the scroll fetches have none) and the page it asks. *)
Lemma scroll_pages_off_nominal_schedule :
  map (fun r => (req_signal r, requestedPage (req_snap r) (req_initialPage r)))
    (issued
       (run Samples.cfg0
          [FilterChange Samples.filtersB; Resolve 1 (Samples.failed 503 None);
           Scroll; Resolve 2 (Samples.ok [Samples.team "b1"]); Scroll]))
  = [(Some 0%nat, 1); (Some 1%nat, 1); (None, 1); (None, 2)]
  ∧ map (fun r => (req_signal r, requestedPage (req_snap r) (req_initialPage r)))
      (issued
         (run Samples.cfg0
            [FilterChange Samples.filtersB; Scroll;
             Resolve 1 (Samples.ok [Samples.team "b1"]);
             Resolve 2 (Samples.ok [Samples.team "b2"]); Scroll]))
    = [(Some 0%nat, 1); (Some 1%nat, 1); (None, 1); (None, 3)].
Proof. split; vm_compute; reflexivity. Qed.

Import Repositories.

(** C4, as the code has it, on two deletions that overlap. Both bins are
    clicked on the render that lists [r1], [r2] and [r3]. The answer for
    [r1] leaves [r2] and [r3]; the answer for [r2] then stores the list of
    the click without [r2], so [r1] is back, instead of removing [r2] from
    the held list, which would leave [r3] alone. *)
Theorem overlapping_delete_puts_entry_back :
  let answered := Returned (mkResponse 200 (Some tt) None) in
  let s1 := (handleRepoDelete_resume Samples.linked "r1" answered Samples.linked).1 in
  let s2 := (handleRepoDelete_resume Samples.linked "r2" answered s1).1 in
  githubRepos s1 = [Samples.repo "r2" "beta"; Samples.repo "r3" "gamma"]
  ∧ githubRepos s2 = [Samples.repo "r1" "alpha"; Samples.repo "r3" "gamma"]
  ∧ githubRepos s2 ≠ [Samples.repo "r3" "gamma"]
  ∧ (handleRepoDelete_resume Samples.linked "r2" answered s1).2
      = [ToastSuccess "Repository deleted successfully"].
Proof.
  cbv zeta. split; [reflexivity|]. split; [reflexivity|].
  split; [discriminate|reflexivity].
Qed.
